(** * Taurus model consistency check and monitor dispatcher

    A shallow embedding of [taurus/engine/check_model_consistency.py]
    (the reconciliation of the engine's metric table against its
    DynamoDB mirror) and of the [MonitorDispatcher] contract exercised
    by [taurus.monitoring/tests/unit/monitor_dispatcher_test.py].

    Python dictionaries keyed by uid are [gmap string _], key sets are
    [gset string], exceptions are an explicit [result] type, and the
    logger is an explicit list of log records. *)

From Stdlib Require Import ZArith Ascii String DecimalString.
From stdpp Require Import gmap strings list fin_maps.

#[local] Set Warnings "-clear-no-such-hyp".

Local Open Scope string_scope.
Local Open Scope list_scope.

(** ** The Python builtins the script relies on *)

Module Py.

(** Exceptions that the modelled code can raise. *)
Inductive exc : Type :=
| ValueError            (* json.loads on text that is not JSON *)
| KeyError (k : string) (* d[k] on a dict without key k *)
| TypeError             (* v[k] on a value that is not a dict *)
| UnicodeEncodeError.   (* str(u) on text with a character outside ASCII *)

Inductive result (A : Type) : Type :=
| Ok (a : A)
| Raise (e : exc).
Arguments Ok {A} a.
Arguments Raise {A} e.

Definition bind {A B} (r : result A) (k : A -> result B) : result B :=
  match r with
  | Ok a => k a
  | Raise e => Raise e
  end.

(** A generator expression whose element expression may raise. *)
(** A [for] loop that updates an accumulator and may raise. *)
Fixpoint for_in {A S} (l : list A) (s : S) (body : S -> A -> result S)
  : result S :=
  match l with
  | [] => Ok s
  | x :: r => bind (body s x) (fun s' => for_in r s' body)
  end.

Fixpoint for_each {A B} (f : A -> result B) (l : list A)
  : result (list B) :=
  match l with
  | [] => Ok []
  | x :: r =>
      bind (f x) (fun y => bind (for_each f r) (fun ys => Ok (y :: ys)))
  end.

(** Values as [json.loads] builds them. *)
#[local] Unset Elimination Schemes.
Inductive pyval : Type :=
| PNone
| PBool (b : bool)
| PInt (z : Z)
| PStr (s : string)
| PList (l : list pyval)
| PDict (kvs : list (string * pyval)).
#[local] Set Elimination Schemes.

Fixpoint assoc (k : string) (kvs : list (string * pyval)) : option pyval :=
  match kvs with
  | [] => None
  | (k', v) :: r => if String.eqb k k' then Some v else assoc k r
  end.

(** [v[k]] for a string key [k]. *)
Definition getitem (v : pyval) (k : string) : result pyval :=
  match v with
  | PDict kvs =>
      match assoc k kvs with
      | Some x => Ok x
      | None => Raise (KeyError k)
      end
  | _ => Raise TypeError
  end.

(** [v != s] where [s] is text: only the same text compares equal. *)
Definition ne_str (v : pyval) (s : string) : bool :=
  match v with
  | PStr t => negb (String.eqb t s)
  | _ => true
  end.

(** [str(n)] and ["%s" % n] for a length or a count. *)
Definition str_nat (n : nat) : string :=
  NilEmpty.string_of_uint (Nat.to_uint n).

Definition str_Z (z : Z) : string :=
  NilEmpty.string_of_int (Z.to_int z).

(** The line feed, written [\n] in the Python source. *)
Definition nl : string := String "010"%char EmptyString.

(** Truth value of a list or tuple in a condition. *)
Definition truthy {A} (l : list A) : bool :=
  match l with
  | [] => false
  | _ :: _ => true
  end.

(** ["sep".join(l)] *)
Fixpoint join (sep : string) (l : list string) : string :=
  match l with
  | [] => ""
  | [x] => x
  | x :: r => x +:+ sep +:+ join sep r
  end.

Fixpoint contains (c : ascii) (s : string) : bool :=
  match s with
  | EmptyString => false
  | String d r => if Ascii.eqb c d then true else contains c r
  end.

Definition hex_digit (n : N) : ascii :=
  if (n <? 10)%N then ascii_of_N (48 + n) else ascii_of_N (87 + n).

Definition escape (quote c : ascii) : string :=
  if Ascii.eqb c quote || Ascii.eqb c "\"%char then
    String "\"%char (String c "")
  else if Ascii.eqb c "009"%char then "\t"
  else if Ascii.eqb c "010"%char then "\n"
  else if Ascii.eqb c "013"%char then "\r"
  else
    let n := N_of_ascii c in
    if (n <? 32)%N || (127 <=? n)%N then
      String "\"%char
        (String "x"%char
           (String (hex_digit (n / 16)) (String (hex_digit (n mod 16)) "")))
    else String c "".

Fixpoint escape_all (quote : ascii) (s : string) : string :=
  match s with
  | EmptyString => ""
  | String c r => escape quote c +:+ escape_all quote r
  end.

(** [repr(s)] of a byte string: single quotes, unless the text has a
    single quote and no double quote. *)
Definition repr_str (s : string) : string :=
  let quote :=
    if contains "'"%char s && negb (contains "034"%char s)
    then "034"%char else "'"%char in
  String quote (escape_all quote s +:+ String quote "").

(** [repr] of a list of byte strings, as [str.format] prints it. *)
Definition repr_str_list (l : list string) : string :=
  "[" +:+ join ", " (map repr_str l) +:+ "]".

Definition repr_str_tuple (l : list string) : string :=
  match l with
  | [x] => "(" +:+ repr_str x +:+ ",)"
  | _ => "(" +:+ join ", " (map repr_str l) +:+ ")"
  end.

(** [repr(v)] of a decoded JSON value; decoded text is unicode. *)
Fixpoint repr_val (v : pyval) : string :=
  match v with
  | PNone => "None"
  | PBool true => "True"
  | PBool false => "False"
  | PInt z => str_Z z
  | PStr s => "u" +:+ repr_str s
  | PList l =>
      "[" +:+ join ", "
               ((fix go (l : list pyval) : list string :=
                   match l with
                   | [] => []
                   | x :: r => repr_val x :: go r
                   end) l) +:+ "]"
  | PDict kvs =>
      "{" +:+ join ", "
               ((fix go (l : list (string * pyval)) : list string :=
                   match l with
                   | [] => []
                   | (k, x) :: r =>
                       ("u" +:+ repr_str k +:+ ": " +:+ repr_val x) :: go r
                   end) kvs) +:+ "}"
  end.

(** Text that the ASCII codec can encode: every character below 128. *)
Fixpoint is_ascii (s : string) : bool :=
  match s with
  | EmptyString => true
  | String c r => (N_of_ascii c <? 128)%N && is_ascii r
  end.

(** What [str(v)] returns when it returns: text as itself, everything
    else as its [repr]. *)
Definition str_text (v : pyval) : string :=
  match v with
  | PStr s => s
  | _ => repr_val v
  end.

(** [str(v)] of a decoded JSON value. Decoded text is unicode, which
    [str] encodes with the ASCII codec: a character outside ASCII
    raises. *)
Definition str_val (v : pyval) : result string :=
  match v with
  | PStr s => if is_ascii s then Ok s else Raise UnicodeEncodeError
  | _ => Ok (repr_val v)
  end.

(** [str(x)] of a nullable text column. *)
Definition str_opt (o : option string) : string :=
  match o with
  | Some s => s
  | None => "None"
  end.

End Py.

Import Py.

#[global] Instance result_ret : MRet result := @Ok.
#[global] Instance result_bind : MBind result :=
  fun A B k r => Py.bind r k.


(** ** Records of the two stores *)

(** [htmengine.repository.queries.MetricStatus] *)
Inductive MetricStatus : Type :=
| UNMONITORED
| ACTIVE
| CREATE_PENDING
| ERROR
| PENDING_DATA.

#[global] Instance MetricStatus_eq_dec : EqDecision MetricStatus.
Proof. solve_decision. Defined.

(** A row of the engine's [metric] table, the columns the script reads.
    [message] is a nullable column. *)
Record EngineRow : Type := {
  e_uid : string;
  e_name : string;
  e_status : MetricStatus;
  e_server : string;
  e_parameters : string;
  e_message : option string
}.

(** An item of the DynamoDB metric table, the attributes the script
    reads. *)
Record DynamoRow : Type := {
  d_uid : string;
  d_name : string;
  d_display_name : string;
  d_metricType : string;
  d_metricTypeName : string;
  d_symbol : string
}.

(** A finding is the two-tuple [(caption, details)]. *)
Abbreviation finding := (string * string)%type.

(** One attribute difference: [(field, engine value, DynamoDB value)].
    The engine value of [name] and [server] is text, hence a [PStr]. *)
Abbreviation diff := (string * pyval * string)%type.

Inductive level : Type := LogInfo | LogWarn | LogError.

(** What [g_log] receives: the level and the formatted message. *)
Abbreviation logrec := (level * string)%type.

(** [{obj["uid"]: obj for obj in rows}]: a later row replaces an earlier
    one with the same uid. *)
Definition dictBy {A} (key : A -> string) (rows : list A) : gmap string A :=
  foldl (fun m obj => <[key obj := obj]> m) ∅ rows.

(** [m[k]] on a dictionary. *)
Definition dict_getitem {A} (m : gmap string A) (k : string) : result A :=
  match m !! k with
  | Some x => Ok x
  | None => Raise (KeyError k)
  end.

(** ** check_model_consistency.py *)

Definition activeModelsMap (engineMetrics : list EngineRow)
  : gmap string EngineRow :=
  dictBy e_uid (filter (fun obj => e_status obj = ACTIVE) engineMetrics).

Definition dynamodbModelsMap (dynamodbMetrics : list DynamoRow)
  : gmap string DynamoRow :=
  dictBy d_uid dynamodbMetrics.

(** *** _checkFailedModels *)

Definition errorModels (engineMetrics : list EngineRow) : list EngineRow :=
  filter (fun obj => e_status obj = ERROR) engineMetrics.

Definition failedModelLine (obj : EngineRow) : string :=
  "WARNING - model in error state: " +:+
  repr_str_list [e_uid obj; e_name obj; str_opt (e_message obj)].

Definition failedModelsFinding (errorModels : list EngineRow) : finding :=
  (str_nat (length errorModels) +:+ " models in ERROR state",
   join nl (map failedModelLine errorModels)).

Definition _checkFailedModels (engineMetrics : list EngineRow)
  (verbose : bool) : list finding * list finding :=
  let warnings := [] in
  let errorModels := errorModels engineMetrics in
  let warnings :=
    if truthy errorModels
    then warnings ++ [failedModelsFinding errorModels]
    else warnings in
  (warnings, []).

(** *** _checkModelParity *)

Definition inRepositoryButNotInDynamodb (engineMetrics : list EngineRow)
  (dynamodbMetrics : list DynamoRow) : gset string :=
  dom (activeModelsMap engineMetrics) ∖ dom (dynamodbModelsMap dynamodbMetrics).

Definition inDynamodbButNotInRepository (engineMetrics : list EngineRow)
  (dynamodbMetrics : list DynamoRow) : gset string :=
  dom (dynamodbModelsMap dynamodbMetrics) ∖ dom (activeModelsMap engineMetrics).

Definition notInDynamodbCaption (n : nat) : string :=
  "There are " +:+ str_nat n +:+
  " active models in Taurus Engine repository that are not in DynamoDB".

Definition notInDynamodbLine (uid name : string) : string :=
  "ERROR - model not in DynamoDB: " +:+ repr_str_list [uid; name].

Definition notInRepositoryCaption (n : nat) : string :=
  "There are " +:+ str_nat n +:+
  " model UIDs in DynamoDB that are not among active models in Taurus " +:+
  "Engine repository".

Definition notInRepositoryLine (uid name : string) : string :=
  "ERROR - model UID not in Taurus Engine repository: " +:+
  repr_str_list [uid; name].

(** The iteration order of a Python set is fixed for a given set but
    otherwise unspecified; [elements] plays that role. *)
Definition _checkModelParity (engineMetrics : list EngineRow)
  (dynamodbMetrics : list DynamoRow) (verbose : bool)
  : result (list finding * list finding) :=
  let errors := [] in
  let activeModelsMap := activeModelsMap engineMetrics in
  let dynamodbModelsMap := dynamodbModelsMap dynamodbMetrics in
  let inRepositoryButNotInDynamodb :=
    dom activeModelsMap ∖ dom dynamodbModelsMap in
  errors ←
    (if truthy (elements inRepositoryButNotInDynamodb) then
       lines ← for_each
                 (fun uid =>
                    obj ← dict_getitem activeModelsMap uid;
                    Ok (notInDynamodbLine uid (e_name obj)))
                 (elements inRepositoryButNotInDynamodb);
       Ok (errors ++
           [(notInDynamodbCaption (size inRepositoryButNotInDynamodb),
             join nl lines)])
     else Ok errors);
  let inDynamodbButNotInRepository :=
    dom dynamodbModelsMap ∖ dom activeModelsMap in
  errors ←
    (if truthy (elements inDynamodbButNotInRepository) then
       lines ← for_each
                 (fun uid =>
                    obj ← dict_getitem dynamodbModelsMap uid;
                    Ok (notInRepositoryLine uid (d_name obj)))
                 (elements inDynamodbButNotInRepository);
       Ok (errors ++
           [(notInRepositoryCaption (size inDynamodbButNotInRepository),
             join nl lines)])
     else Ok errors);
  Ok ([], errors).

(** *** _checkModelAttributeParity *)

Definition commonMetricIds (engineMetrics : list EngineRow)
  (dynamodbMetrics : list DynamoRow) : gset string :=
  dom (dynamodbModelsMap dynamodbMetrics) ∩ dom (activeModelsMap engineMetrics).

Definition mismatchCaption (n : nat) : string :=
  str_nat n +:+
  " models have attribute mismatch between Taurus Engine " +:+
  "repository and DynamoDB".

(** The differences recorded under [name] and [display_name] hold text
    of the engine row, which [str] returns as it is, like the text of
    every other column; the other three hold values decoded from the
    payload. *)
Definition isColumn (field : string) : bool :=
  String.eqb field "name" || String.eqb field "display_name".

(** [str(item)] for the engine value of a difference. *)
Definition strEngineValue (field : string) (engineValue : pyval)
  : result string :=
  if isColumn field then Ok (str_text engineValue) else str_val engineValue.

(** [tuple(str(item) for item in diff)] *)
Definition strItems (d : diff) : result (list string) :=
  let '(field, engineValue, dynamodbValue) := d in
  engineText ← strEngineValue field engineValue;
  Ok [field; engineText; dynamodbValue].

(** One line of the detail, for the uid and the differences of one
    element of [mismatches]. *)
Definition renderMismatchLine (uid : string) (diffs : list diff)
  : result string :=
  tuples ← for_each strItems diffs;
  Ok ("ERROR - model " +:+ uid +:+
      " has attribute mismatch in Engine vs " +:+ "DynamoDB: " +:+
      "[" +:+ join ", " (map repr_str_tuple tuples) +:+ "]").

(** The two-tuple appended to [errors] for a non-empty [mismatches]. *)
Definition renderMismatches (mismatches : list (string * list diff))
  : result finding :=
  let caption := mismatchCaption (length mismatches) in
  lines ← for_each (fun '(uid, diffs) => renderMismatchLine uid diffs)
            mismatches;
  Ok (caption, join nl lines).

(** The same text, written without the conversions that can raise: what
    the tuple, the line and the finding are whenever they are written. *)
Definition diffStrings (d : diff) : list string :=
  let '(field, engineValue, dynamodbValue) := d in
  [field; str_text engineValue; dynamodbValue].

Definition mismatchLine (uid : string) (diffs : list diff) : string :=
  "ERROR - model " +:+ uid +:+
  " has attribute mismatch in Engine vs " +:+ "DynamoDB: " +:+
  "[" +:+ join ", " (map (fun d => repr_str_tuple (diffStrings d)) diffs)
  +:+ "]".

Definition mismatchFinding (mismatches : list (string * list diff))
  : finding :=
  (mismatchCaption (length mismatches),
   join nl (map (fun '(uid, diffs) => mismatchLine uid diffs) mismatches)).

Section WithJson.

(** [json.loads], of the standard library. *)
Variable json_loads : string -> result pyval.

(** The body of the loop over [commonMetricIds], up to the test of
    [diffs]. *)
Definition modelDiffs (activeModel : EngineRow) (dynamodbModel : DynamoRow)
  : result (list diff) :=
  let diffs := [] in
  let diffs :=
    if negb (String.eqb (e_name activeModel) (d_name dynamodbModel))
    then diffs ++ [("name", PStr (e_name activeModel), d_name dynamodbModel)]
    else diffs in
  let diffs :=
    if negb (String.eqb (e_server activeModel)
               (d_display_name dynamodbModel))
    then diffs ++ [("display_name", PStr (e_server activeModel),
                    d_display_name dynamodbModel)]
    else diffs in
  activeModelConfig ← json_loads (e_parameters activeModel);
  metricSpec ← getitem activeModelConfig "metricSpec";
  activeModelUserInfo ← getitem metricSpec "userInfo";
  metricType ← getitem activeModelUserInfo "metricType";
  let diffs :=
    if ne_str metricType (d_metricType dynamodbModel)
    then diffs ++ [("metricType", metricType, d_metricType dynamodbModel)]
    else diffs in
  metricTypeName ← getitem activeModelUserInfo "metricTypeName";
  let diffs :=
    if ne_str metricTypeName (d_metricTypeName dynamodbModel)
    then diffs ++ [("metricTypeName", metricTypeName,
                    d_metricTypeName dynamodbModel)]
    else diffs in
  symbol ← getitem activeModelUserInfo "symbol";
  let diffs :=
    if ne_str symbol (d_symbol dynamodbModel)
    then diffs ++ [("symbol", symbol, d_symbol dynamodbModel)]
    else diffs in
  Ok diffs.

(** The list [mismatches] when the loop has ended. *)
Definition mismatches (engineMetrics : list EngineRow)
  (dynamodbMetrics : list DynamoRow) : result (list (string * list diff)) :=
  let activeModelsMap := activeModelsMap engineMetrics in
  let dynamodbModelsMap := dynamodbModelsMap dynamodbMetrics in
  let commonMetricIds := dom dynamodbModelsMap ∩ dom activeModelsMap in
  for_in (elements commonMetricIds) []
    (fun mismatches uid =>
       activeModel ← dict_getitem activeModelsMap uid;
       dynamodbModel ← dict_getitem dynamodbModelsMap uid;
       diffs ← modelDiffs activeModel dynamodbModel;
       if truthy diffs
       then Ok (mismatches ++ [(uid, diffs)])
       else Ok mismatches).

Definition _checkModelAttributeParity (engineMetrics : list EngineRow)
  (dynamodbMetrics : list DynamoRow) (verbose : bool)
  : result (list finding * list finding) :=
  let errors := [] in
  mismatches ← mismatches engineMetrics dynamodbMetrics;
  errors ←
    (if truthy mismatches
     then finding ← renderMismatches mismatches; Ok (errors ++ [finding])
     else Ok errors);
  Ok ([], errors).

(** *** _runAllChecks *)

Definition countStatus (st : MetricStatus) (engineMetrics : list EngineRow)
  : nat :=
  length (filter (fun obj => e_status obj = st) engineMetrics).

Definition infoIfAny (n : nat) (pre post : string) : list logrec :=
  match n with
  | O => []
  | S _ => [(LogInfo, pre +:+ str_nat n +:+ post)]
  end.

(** The records logged by the [if verbose:] block. *)
Definition verboseCounts (engineMetrics : list EngineRow)
  (dynamodbMetrics : list DynamoRow) : list logrec :=
  [(LogInfo, "There are " +:+ str_nat (length engineMetrics) +:+
             " metrics in Taurus Engine repository");
   (LogInfo, "There are " +:+ str_nat (length dynamodbMetrics) +:+
             " metrics in DynamoDB");
   (LogInfo, "There are " +:+ str_nat (countStatus ACTIVE engineMetrics) +:+
             " actively-monitored models (ACTIVE)")]
  ++ infoIfAny (countStatus UNMONITORED engineMetrics)
       "There are " " metrics that are not monitored (UNMONITORED)"
  ++ infoIfAny (countStatus CREATE_PENDING engineMetrics)
       "There are " " models that are create-pending (CREATE_PENDING)"
  ++ infoIfAny (countStatus PENDING_DATA engineMetrics)
       "There are " " models that are pending-data (PENDING_DATA)".

Definition _runAllChecks (engineMetrics : list EngineRow)
  (dynamodbMetrics : list DynamoRow) (verbose : bool)
  : list logrec * result (list finding * list finding) :=
  let allWarnings := [] in
  let allErrors := [] in
  let log :=
    if verbose then verboseCounts engineMetrics dynamodbMetrics else [] in
  (log,
   let '(warnings, errors) := _checkFailedModels engineMetrics verbose in
   let allWarnings := allWarnings ++ warnings in
   let allErrors := allErrors ++ errors in
   '(warnings, errors) ←
     _checkModelParity engineMetrics dynamodbMetrics verbose;
   let allWarnings := allWarnings ++ warnings in
   let allErrors := allErrors ++ errors in
   '(warnings, errors) ←
     _checkModelAttributeParity engineMetrics dynamodbMetrics verbose;
   let allWarnings := allWarnings ++ warnings in
   let allErrors := allErrors ++ errors in
   Ok (allWarnings, allErrors)).

(** *** checkAndReport *)

(** What the two store clients hand over: the engine handle as it
    prints, the rows of [getAllMetrics], the DynamoDB table name, its
    connection as [%r] prints it, and the items of the table scan. *)
Record Stores : Type := {
  sqlEngine : string;
  engineRows : list EngineRow;
  table_name : string;
  connection : string;
  scanRows : list DynamoRow
}.

Definition _getMetricsFromDynamodb (st : Stores) (verbose : bool)
  : list logrec * list DynamoRow :=
  (if verbose
   then [(LogInfo, "Accessing metrics in DynamodDB from " +:+ table_name st
                   +:+ " via " +:+ connection st)]
   else [],
   scanRows st).

(** The [if warnings or errors or verbose:] block. *)
Definition reportFindings (warnings errors : list finding) (verbose : bool)
  : list logrec :=
  if truthy warnings || truthy errors || verbose then
    map (fun '(caption, details) =>
           (LogWarn, caption +:+ nl +:+ details)) warnings
    ++ map (fun '(caption, details) =>
              (LogError, caption +:+ nl +:+ details)) errors
    ++ [(LogInfo, "--------- SUMMARY ---------")]
    ++ map (fun '(caption, _) => (LogWarn, caption)) warnings
    ++ map (fun '(caption, _) => (LogError, caption)) errors
    ++ (if truthy warnings
        then [(LogWarn, "Warnings: " +:+ str_nat (length warnings))]
        else if verbose then [(LogInfo, "Warnings: 0")] else [])
    ++ (if truthy errors
        then [(LogError, "Errors: " +:+ str_nat (length errors))]
        else if verbose then [(LogInfo, "Errors: 0")] else [])
  else [].

(** The last four lines of [checkAndReport]: the result code. *)
Definition verdict (warnings errors : list finding)
  (warningsAsErrors : bool) : Z :=
  if truthy errors || (truthy warnings && warningsAsErrors)
  then 1%Z
  else 0%Z.

Definition checkAndReport (st : Stores) (verbose warningsAsErrors : bool)
  : list logrec * result Z :=
  let log0 :=
    if verbose
    then [(LogInfo, "Accessing Taurus Engine repository via " +:+
                    sqlEngine st)]
    else [] in
  let engineMetrics := engineRows st in
  let '(log1, dynamodbMetrics) := _getMetricsFromDynamodb st verbose in
  let '(log2, checked) :=
    _runAllChecks engineMetrics dynamodbMetrics verbose in
  match checked with
  | Raise e => (log0 ++ log1 ++ log2, Raise e)
  | Ok (warnings, errors) =>
      (log0 ++ log1 ++ log2 ++ reportFindings warnings errors verbose,
       Ok (verdict warnings errors warningsAsErrors))
  end.

End WithJson.

(** ** Vocabulary of the properties *)

(** The uids on each side, stated on the input sequences. *)
Definition isActiveUid (engineMetrics : list EngineRow) (uid : string) : Prop :=
  ∃ obj, obj ∈ engineMetrics ∧ e_uid obj = uid ∧ e_status obj = ACTIVE.

Definition isEngineUid (engineMetrics : list EngineRow) (uid : string) : Prop :=
  ∃ obj, obj ∈ engineMetrics ∧ e_uid obj = uid.

Definition isMirrorUid (dynamodbMetrics : list DynamoRow) (uid : string)
  : Prop :=
  ∃ row, row ∈ dynamodbMetrics ∧ d_uid row = uid.

(** The three fields read from [metricSpec.userInfo] of a serialized
    parameters payload. *)
Definition userInfoFields (json_loads : string -> result pyval)
  (parameters : string) : result (pyval * pyval * pyval) :=
  activeModelConfig ← json_loads parameters;
  metricSpec ← getitem activeModelConfig "metricSpec";
  activeModelUserInfo ← getitem metricSpec "userInfo";
  metricType ← getitem activeModelUserInfo "metricType";
  metricTypeName ← getitem activeModelUserInfo "metricTypeName";
  symbol ← getitem activeModelUserInfo "symbol";
  Ok (metricType, metricTypeName, symbol).

(** A payload is well formed when it deserializes and holds
    [metricSpec.userInfo] with [metricType], [metricTypeName] and
    [symbol]. *)
Definition wellFormed (json_loads : string -> result pyval)
  (parameters : string) : Prop :=
  ∃ fields, userInfoFields json_loads parameters = Ok fields.

(** A payload is malformed when it does not deserialize, or lacks the
    [metricSpec.userInfo] structure. *)
Definition malformed (json_loads : string -> result pyval)
  (parameters : string) : Prop :=
  (∃ e, json_loads parameters = Raise e) ∨
  (∃ cfg e, json_loads parameters = Ok cfg ∧
            (metricSpec ← getitem cfg "metricSpec";
             getitem metricSpec "userInfo") = Raise e).

(** The five compared fields of a pair of records, engine side first. *)
Definition fieldsDiffer (activeModel : EngineRow) (fields : pyval * pyval * pyval)
  (dynamodbModel : DynamoRow) : Prop :=
  let '(metricType, metricTypeName, symbol) := fields in
  e_name activeModel ≠ d_name dynamodbModel ∨
  e_server activeModel ≠ d_display_name dynamodbModel ∨
  metricType ≠ PStr (d_metricType dynamodbModel) ∨
  metricTypeName ≠ PStr (d_metricTypeName dynamodbModel) ∨
  symbol ≠ PStr (d_symbol dynamodbModel).

(** One turn of the loop of [_checkModelAttributeParity], up to the test
    of [diffs]. *)
Definition stepDiffs (json_loads : string -> result pyval)
  (engineMetrics : list EngineRow) (dynamodbMetrics : list DynamoRow)
  (uid : string) : result (list diff) :=
  activeModel ← dict_getitem (activeModelsMap engineMetrics) uid;
  dynamodbModel ← dict_getitem (dynamodbModelsMap dynamodbMetrics) uid;
  modelDiffs json_loads activeModel dynamodbModel.

(** What the set-parity check returns, without the lookups that could
    raise. *)

Definition activeName (engineMetrics : list EngineRow) (uid : string)
  : string :=
  match activeModelsMap engineMetrics !! uid with
  | Some obj => e_name obj
  | None => ""
  end.

Definition dynamodbName (dynamodbMetrics : list DynamoRow) (uid : string)
  : string :=
  match dynamodbModelsMap dynamodbMetrics !! uid with
  | Some obj => d_name obj
  | None => ""
  end.

Definition notInDynamodbFinding (engineMetrics : list EngineRow)
  (dynamodbMetrics : list DynamoRow) : finding :=
  let uids := inRepositoryButNotInDynamodb engineMetrics dynamodbMetrics in
  (notInDynamodbCaption (size uids),
   join nl (map (fun uid =>
                   notInDynamodbLine uid (activeName engineMetrics uid))
              (elements uids))).

Definition notInRepositoryFinding (engineMetrics : list EngineRow)
  (dynamodbMetrics : list DynamoRow) : finding :=
  let uids := inDynamodbButNotInRepository engineMetrics dynamodbMetrics in
  (notInRepositoryCaption (size uids),
   join nl (map (fun uid =>
                   notInRepositoryLine uid (dynamodbName dynamodbMetrics uid))
              (elements uids))).

Definition parityErrors (engineMetrics : list EngineRow)
  (dynamodbMetrics : list DynamoRow) : list finding :=
  (if truthy (elements
                (inRepositoryButNotInDynamodb engineMetrics dynamodbMetrics))
   then [notInDynamodbFinding engineMetrics dynamodbMetrics] else [])
  ++
  (if truthy (elements
                (inDynamodbButNotInRepository engineMetrics dynamodbMetrics))
   then [notInRepositoryFinding engineMetrics dynamodbMetrics] else []).


Definition is_digit (c : ascii) : bool :=
  (48 <=? N_of_ascii c)%N && (N_of_ascii c <=? 57)%N.

Fixpoint skip_digits (s : string) : string :=
  match s with
  | EmptyString => EmptyString
  | String c r => if is_digit c then skip_digits r else s
  end.

(** ** monitor_dispatcher.py *)

Module MonitorDispatcher.

(** Modelled from the spec: the captured failure of a check (kind,
    message and trace), which [taurus/monitoring/monitor_dispatcher.py]
    hands to [dispatchNotification]; that module is not among the
    sources, only its unit test is. *)
Record ExcInfo : Type := {
  excType : string;
  excValue : string;
  excTraceback : string
}.

#[global] Instance ExcInfo_eq_dec : EqDecision ExcInfo.
Proof. solve_decision. Defined.

(** Modelled from the spec: what the mocks of the unit test record. A
    check routine records that it was called and how it ended (the
    failure it raised, if any); the notification records the check and
    the failure it was called with. *)
Inductive Event : Type :=
| Invoked (name : string) (outcome : option ExcInfo)
| Notified (name : string) (exc : ExcInfo).

#[global] Instance Event_eq_dec : EqDecision Event.
Proof. solve_decision. Defined.

(** Modelled from the spec: the errors of the dispatcher itself, the
    composition error of an abstract type and a registry entry that
    resolves to no routine. *)
Inductive DispatcherError : Type :=
| AbstractTypeError
| UnresolvedCheck (name : string).

Section Dispatcher.

(** The state that check routines and the notification act on. *)
Variable World : Type.

(** Modelled from the spec: a check routine takes no argument and
    either completes normally ([None]) or raises. *)
Definition CheckFn : Type := World -> World * option ExcInfo.

(** Modelled from the spec: [dispatchNotification(checkFn, excType,
    excValue, excTraceback)]; the check is given by name and
    routine. *)
Definition Notifier : Type :=
  string -> CheckFn -> ExcInfo -> World -> World.

(** Modelled from the spec: a concrete monitor type, as the routines
    marked with [registerCheck] along its hierarchy (base types
    first, declaration order within a type, an override appearing
    again under its name) and the implementation of
    [dispatchNotification], if the type supplies one. *)
Record MonitorType : Type := {
  marked : list (string * CheckFn);
  dispatchNotification : option Notifier
}.

(** Modelled from the spec: each name listed once, at its first
    place. *)
Fixpoint dedup (names : list string) : list string :=
  match names with
  | [] => []
  | x :: r => x :: filter (fun y => y ≠ x) (dedup r)
  end.

(** Modelled from the spec: the CheckRegistry lookup for a type, an
    ordered list of check names without duplicates. *)
Definition registry (T : MonitorType) : list string :=
  dedup (map fst (marked T)).

(** Modelled from the spec: the routine bound to a name; the most
    derived override wins. *)
Fixpoint bound (ms : list (string * CheckFn)) (name : string)
  : option CheckFn :=
  match ms with
  | [] => None
  | (n, fn) :: r =>
      match bound r name with
      | Some fn' => Some fn'
      | None => if String.eqb n name then Some fn else None
      end
  end.

(** Modelled from the spec: an instance of a concrete monitor type. *)
Record Monitor : Type := {
  monitorType : MonitorType;
  notify : Notifier
}.

(** Modelled from the spec: construction, which fails with a
    configuration error when the type has not supplied
    [dispatchNotification]. *)
Definition new (T : MonitorType) : DispatcherError + Monitor :=
  match dispatchNotification T with
  | None => inl AbstractTypeError
  | Some handler => inr {| monitorType := T; notify := handler |}
  end.

(** Modelled from the spec: one fault-isolated invocation. A failure
    is captured and forwarded, and the dispatcher goes on. *)
Definition runCheck (m : Monitor) (name : string) (fn : CheckFn)
  (w : World) : World :=
  match fn w with
  | (w', None) => w'
  | (w', Some exc) => notify m name fn exc w'
  end.

(** Modelled from the spec: the iteration of [checkAll()] over the
    registered names, in registry order. *)
Fixpoint runChecks (m : Monitor) (names : list string) (w : World)
  : DispatcherError + World :=
  match names with
  | [] => inr w
  | name :: rest =>
      match bound (marked (monitorType m)) name with
      | None => inl (UnresolvedCheck name)
      | Some fn => runChecks m rest (runCheck m name fn w)
      end
  end.

(** Modelled from the spec: [checkAll()]. *)
Definition checkAll (m : Monitor) (w : World) : DispatcherError + World :=
  runChecks m (registry (monitorType m)) w.

(** What is recorded for one check that ends with [outcome]: its call,
    then the notification when it failed. *)
Definition callsOf (name : string) (outcome : option ExcInfo) : list Event :=
  Invoked name outcome ::
  match outcome with
  | Some exc => [Notified name exc]
  | None => []
  end.

(** The checks called, in order. *)
Definition invocations (events : list Event) : list string :=
  omap (fun ev => match ev with
                  | Invoked name _ => Some name
                  | Notified _ _ => None
                  end) events.

(** The checks that raised, with what they raised, in order. *)
Definition failures (events : list Event) : list (string * ExcInfo) :=
  omap (fun ev => match ev with
                  | Invoked name (Some exc) => Some (name, exc)
                  | _ => None
                  end) events.

(** The calls of the notification, in order. *)
Definition notifications (events : list Event) : list (string * ExcInfo) :=
  omap (fun ev => match ev with
                  | Notified name exc => Some (name, exc)
                  | Invoked _ _ => None
                  end) events.

End Dispatcher.

Arguments marked {World} _.
Arguments dispatchNotification {World} _.
Arguments registry {World} T.
Arguments bound {World} ms name.
Arguments monitorType {World} _.
Arguments notify {World} _.
Arguments new {World} T.
Arguments runCheck {World} m name fn w.
Arguments runChecks {World} m names w.
Arguments checkAll {World} m w.

End MonitorDispatcher.

(** ** Sample populations and a sample monitor *)

Module Samples.

(** A name between double quotes, as JSON text has it. *)
Definition quoted (s : string) : string :=
  String "034"%char (s +:+ String "034"%char EmptyString).

(** The serialized parameters of the sample model. *)
Definition payload : string :=
  "{" +:+ quoted "metricSpec" +:+ ": {" +:+ quoted "userInfo" +:+ ": {"
  +:+ quoted "metricType" +:+ ": " +:+ quoted "StockPrice" +:+ ", "
  +:+ quoted "metricTypeName" +:+ ": " +:+ quoted "Stock Price" +:+ ", "
  +:+ quoted "symbol" +:+ ": " +:+ quoted "ACME" +:+ "}}}".

(** A decoder that knows the sample payload and rejects any other
    text. *)
Definition loads (s : string) : result pyval :=
  if String.eqb s payload then
    Ok (PDict [("metricSpec",
                PDict [("userInfo",
                        PDict [("metricType", PStr "StockPrice");
                               ("metricTypeName", PStr "Stock Price");
                               ("symbol", PStr "ACME")])])])
  else Raise ValueError.

Definition activeRow : EngineRow :=
  {| e_uid := "1"; e_name := "XIGNITE.ACME.CLOSINGPRICE";
     e_status := ACTIVE; e_server := "Acme Corp."; e_parameters := payload;
     e_message := None |}.

Definition brokenRow : EngineRow :=
  {| e_uid := "1"; e_name := "XIGNITE.ACME.CLOSINGPRICE";
     e_status := ACTIVE; e_server := "Acme Corp."; e_parameters := "{";
     e_message := None |}.

Definition failedRow : EngineRow :=
  {| e_uid := "2"; e_name := "XIGNITE.FOO.VOLUME";
     e_status := ERROR; e_server := "Foo Inc."; e_parameters := payload;
     e_message := Some "boom" |}.

Definition item1 : DynamoRow :=
  {| d_uid := "1"; d_name := "XIGNITE.ACME.CLOSINGPRICE";
     d_display_name := "Acme Corporation"; d_metricType := "StockPrice";
     d_metricTypeName := "Stock Price"; d_symbol := "ACME" |}.

Definition item2 : DynamoRow :=
  {| d_uid := "2"; d_name := "XIGNITE.FOO.VOLUME";
     d_display_name := "Foo Inc."; d_metricType := "StockVolume";
     d_metricTypeName := "Stock Volume"; d_symbol := "FOO" |}.

(** The monitor of [testCheckAllSendsNotifications], with one more check
    that completes. The state is what the mocks have recorded. *)
Definition myCheckFailed : MonitorDispatcher.ExcInfo :=
  {| MonitorDispatcher.excType := "Exception";
     MonitorDispatcher.excValue := "myCheckFailed";
     MonitorDispatcher.excTraceback := "" |}.

Definition myCheck1
  : MonitorDispatcher.CheckFn (list MonitorDispatcher.Event) :=
  fun w => (w ++ [MonitorDispatcher.Invoked "myCheck1" None], None).

Definition myCheck
  : MonitorDispatcher.CheckFn (list MonitorDispatcher.Event) :=
  fun w =>
    (w ++ [MonitorDispatcher.Invoked "myCheck" (Some myCheckFailed)],
     Some myCheckFailed).

Definition dispatchNotificationMock
  : MonitorDispatcher.Notifier (list MonitorDispatcher.Event) :=
  fun name _ exc w => w ++ [MonitorDispatcher.Notified name exc].

Definition MyMonitor
  : MonitorDispatcher.MonitorType (list MonitorDispatcher.Event) :=
  {| MonitorDispatcher.marked := [("myCheck1", myCheck1); ("myCheck", myCheck)];
     MonitorDispatcher.dispatchNotification :=
       Some dispatchNotificationMock |}.

Definition myMonitor
  : MonitorDispatcher.Monitor (list MonitorDispatcher.Event) :=
  {| MonitorDispatcher.monitorType := MyMonitor;
     MonitorDispatcher.notify := dispatchNotificationMock |}.

(** The monitor of [testIncompleteSubclassImplementation]. *)
Definition IncompleteMonitor : MonitorDispatcher.MonitorType nat :=
  {| MonitorDispatcher.marked := [];
     MonitorDispatcher.dispatchNotification := None |}.

End Samples.

(** ** The console entry point *)

(** What [_parseArgs] hands back: the namespace of [argparse], or the
    [SystemExit] that [parse_args] raises (code 0 after [--help], 2 after
    a usage error). *)
Inductive Parsed : Type :=
| Namespace (verbose warningsAsErrors : bool)
| SystemExit (code : Z).

(** How a call of [main] ends: it returns a result code, or lets a
    [SystemExit] or an exception of the checks through. *)
Inductive Ending : Type :=
| Returned (code : Z)
| Exited (code : Z)
| Failed (e : exc).

(** [main]. The parser of [argparse] is a parameter, the stores are the
    rows already fetched; the logging set-up of [initTool] and the
    [logExceptions] wrapper, which logs an exception and raises it
    again, are left to their modules. *)
Definition main (parse_args : list string -> Parsed)
  (json_loads : string -> result pyval) (st : Stores) (args : list string)
  : list logrec * Ending :=
  match parse_args args with
  | SystemExit code =>
      if (code =? 0)%Z then ([], Returned 0%Z) else ([], Exited code)
  | Namespace verbose warningsAsErrors =>
      let '(log, r) := checkAndReport json_loads st verbose warningsAsErrors in
      (log, match r with
            | Ok code => Returned code
            | Raise e => Failed e
            end)
  end.

(** ** More vocabulary *)

#[global] Instance level_eq_dec : EqDecision level.
Proof. solve_decision. Defined.

(** The five compared pairs of an engine record and a DynamoDB item, as
    [(field, engine value, DynamoDB value)], in the order of the code. *)
Definition comparedFields (activeModel : EngineRow)
  (fields : pyval * pyval * pyval) (dynamodbModel : DynamoRow) : list diff :=
  let '(metricType, metricTypeName, symbol) := fields in
  [("name", PStr (e_name activeModel), d_name dynamodbModel);
   ("display_name", PStr (e_server activeModel),
    d_display_name dynamodbModel);
   ("metricType", metricType, d_metricType dynamodbModel);
   ("metricTypeName", metricTypeName, d_metricTypeName dynamodbModel);
   ("symbol", symbol, d_symbol dynamodbModel)].

(** A difference whose engine value [str] cannot convert: text decoded
    from the payload with a character outside ASCII. *)
Definition unprintable (d : diff) : bool :=
  let '(field, engineValue, _) := d in
  negb (isColumn field) &&
  match engineValue with
  | PStr s => negb (is_ascii s)
  | _ => false
  end.

(** Some element of [mismatches] holds such a difference. *)
Definition unprintableMismatch (mismatches : list (string * list diff))
  : bool :=
  existsb (fun p : string * list diff => existsb unprintable p.2) mismatches.



(** The records of a log above the INFO level. *)
Definition aboveInfo (log : list logrec) : list logrec :=
  filter (fun r : logrec => r.1 ≠ LogInfo) log.

(** Number of occurrences of a character in a text. *)
Fixpoint count_char (c : ascii) (s : string) : nat :=
  match s with
  | EmptyString => 0
  | String d r => (if Ascii.eqb c d then 1 else 0) + count_char c r
  end.

(** Number of line feeds in a text. *)
Definition count_nl (s : string) : nat := count_char "010"%char s.

(** ** Sample stores *)

Module SampleStores.

(** An engine with one ACTIVE model and one failed model, both mirrored
    in DynamoDB. *)
Definition stores : Stores :=
  {| sqlEngine := "Engine(mysql://taurus)";
     engineRows := [Samples.activeRow; Samples.failedRow];
     table_name := "taurus.metric.production";
     connection := "DynamoDBConnection";
     scanRows := [Samples.item1; Samples.item2] |}.

End SampleStores.

(** ** A sample with text outside ASCII *)

Module NonAsciiSample.

(** The symbol of the model, with a capital E acute (U+00C9) at its
    end, as [json.loads] decodes it. *)
Definition symbol : string := "ACM" +:+ String "201"%char EmptyString.

(** The same symbol in the serialized payload, in UTF-8. *)
Definition symbolText : string :=
  "ACM" +:+ String "195"%char (String "137"%char EmptyString).

Definition payload : string :=
  "{" +:+ Samples.quoted "metricSpec" +:+ ": {"
  +:+ Samples.quoted "userInfo" +:+ ": {"
  +:+ Samples.quoted "metricType" +:+ ": " +:+ Samples.quoted "StockPrice"
  +:+ ", "
  +:+ Samples.quoted "metricTypeName" +:+ ": " +:+ Samples.quoted "Stock Price"
  +:+ ", "
  +:+ Samples.quoted "symbol" +:+ ": " +:+ Samples.quoted symbolText
  +:+ "}}}".

(** A decoder that knows this payload and rejects any other text. *)
Definition loads (s : string) : result pyval :=
  if String.eqb s payload then
    Ok (PDict [("metricSpec",
                PDict [("userInfo",
                        PDict [("metricType", PStr "StockPrice");
                               ("metricTypeName", PStr "Stock Price");
                               ("symbol", PStr symbol)])])])
  else Raise ValueError.

Definition activeRow : EngineRow :=
  {| e_uid := "1"; e_name := "XIGNITE.ACME.CLOSINGPRICE";
     e_status := ACTIVE; e_server := "Acme Corp."; e_parameters := payload;
     e_message := None |}.

(** The item of the model in DynamoDB, equal in every compared field but
    the symbol. *)
Definition item : DynamoRow :=
  {| d_uid := "1"; d_name := "XIGNITE.ACME.CLOSINGPRICE";
     d_display_name := "Acme Corp."; d_metricType := "StockPrice";
     d_metricTypeName := "Stock Price"; d_symbol := "ACME" |}.

End NonAsciiSample.

(** ** Dictionaries built from rows *)

Section DictBy.
Context {A : Type} (key : A -> string).

Lemma dictBy_foldl_dom (rows : list A) (m0 : gmap string A) :
  dom (foldl (fun m obj => <[key obj := obj]> m) m0 rows)
  = dom m0 ∪ list_to_set (key <$> rows).
Proof.
  revert m0. induction rows as [|x rows IH]; intros m0; simpl.
  - set_solver.
  - rewrite IH, dom_insert_L. set_solver.
Qed.

Lemma dom_dictBy (rows : list A) :
  dom (dictBy key rows) = list_to_set (key <$> rows).
Proof. unfold dictBy. rewrite dictBy_foldl_dom. set_solver. Qed.

Lemma elem_of_dom_dictBy (rows : list A) (k : string) :
  k ∈ dom (dictBy key rows) ↔ ∃ x, x ∈ rows ∧ key x = k.
Proof.
  rewrite dom_dictBy, elem_of_list_to_set, list_elem_of_fmap.
  naive_solver.
Qed.

Lemma dictBy_foldl_lookup (rows : list A) (m0 : gmap string A) k x :
  foldl (fun m obj => <[key obj := obj]> m) m0 rows !! k = Some x →
  (x ∈ rows ∧ key x = k) ∨ m0 !! k = Some x.
Proof.
  revert m0. induction rows as [|y rows IH]; intros m0; simpl.
  - auto.
  - intros H. apply IH in H as [[Hin Hk]|H].
    + left. split; [by right | done].
    + destruct (decide (key y = k)) as [<-|Hne].
      * rewrite lookup_insert_eq in H. injection H as ->.
        left. split; [by left | done].
      * rewrite lookup_insert_ne in H by done. by right.
Qed.

Lemma dictBy_lookup_Some (rows : list A) k x :
  dictBy key rows !! k = Some x → x ∈ rows ∧ key x = k.
Proof.
  intros H. apply dictBy_foldl_lookup in H as [H|H]; [done|].
  by rewrite lookup_empty in H.
Qed.

Lemma dictBy_foldl_fresh (rows : list A) (m0 : gmap string A) k :
  k ∉ key <$> rows →
  foldl (fun m obj => <[key obj := obj]> m) m0 rows !! k = m0 !! k.
Proof.
  revert m0. induction rows as [|y rows IH]; intros m0 Hk; simpl; [done|].
  rewrite fmap_cons, not_elem_of_cons in Hk. destruct Hk as [Hne Hk].
  rewrite IH by done. by rewrite lookup_insert_ne.
Qed.

(** With unique keys the dictionary holds every row under its key. *)
Lemma dictBy_lookup_unique (rows : list A) x :
  NoDup (key <$> rows) → x ∈ rows → dictBy key rows !! key x = Some x.
Proof.
  unfold dictBy. generalize (∅ : gmap string A).
  induction rows as [|y rows IH]; intros m0 Hnd Hin; simpl.
  - by apply elem_of_nil in Hin.
  - rewrite fmap_cons in Hnd. apply NoDup_cons in Hnd as [Hy Hnd].
    apply elem_of_cons in Hin as [->|Hin].
    + rewrite dictBy_foldl_fresh by done. apply lookup_insert_eq.
    + by apply IH.
Qed.

Lemma dict_getitem_dom (rows : list A) k :
  k ∈ dom (dictBy key rows) →
  ∃ x, dict_getitem (dictBy key rows) k = Ok x ∧ x ∈ rows ∧ key x = k.
Proof.
  intros [x Hx]%elem_of_dom. exists x. unfold dict_getitem. rewrite Hx.
  split; [done|]. by apply dictBy_lookup_Some.
Qed.

End DictBy.

Lemma elem_of_dom_activeModelsMap engineMetrics uid :
  uid ∈ dom (activeModelsMap engineMetrics) ↔ isActiveUid engineMetrics uid.
Proof.
  unfold activeModelsMap, isActiveUid. rewrite elem_of_dom_dictBy.
  split.
  - intros (obj & [Hst Hin]%list_elem_of_filter & Hk). eauto.
  - intros (obj & Hin & Hk & Hst). exists obj. split; [|done].
    by apply list_elem_of_filter.
Qed.

Lemma elem_of_dom_dynamodbModelsMap dynamodbMetrics uid :
  uid ∈ dom (dynamodbModelsMap dynamodbMetrics)
  ↔ isMirrorUid dynamodbMetrics uid.
Proof. unfold dynamodbModelsMap. apply elem_of_dom_dictBy. Qed.

Lemma activeModelsMap_lookup engineMetrics uid obj :
  activeModelsMap engineMetrics !! uid = Some obj →
  obj ∈ engineMetrics ∧ e_uid obj = uid ∧ e_status obj = ACTIVE.
Proof.
  intros [[Hst Hin]%list_elem_of_filter Hk]%dictBy_lookup_Some. done.
Qed.

Lemma dynamodbModelsMap_lookup dynamodbMetrics uid row :
  dynamodbModelsMap dynamodbMetrics !! uid = Some row →
  row ∈ dynamodbMetrics ∧ d_uid row = uid.
Proof. apply dictBy_lookup_Some. Qed.

(** ** Loops that cannot raise, and loops that must *)

Lemma truthy_true {A} (l : list A) : truthy l = true ↔ l ≠ [].
Proof. destruct l; simpl; split; congruence. Qed.

Lemma truthy_false {A} (l : list A) : truthy l = false ↔ l = [].
Proof. destruct l; simpl; split; congruence. Qed.

Lemma truthy_elements (s : gset string) : truthy (elements s) = true ↔ s ≠ ∅.
Proof.
  rewrite truthy_true. split; intros H Hs; apply H.
  - subst. apply elements_empty.
  - by apply elements_empty_inv, leibniz_equiv in Hs.
Qed.

Lemma truthy_elements_false (s : gset string) :
  truthy (elements s) = false ↔ s = ∅.
Proof.
  rewrite truthy_false. split.
  - intros H. by apply leibniz_equiv, elements_empty_inv.
  - intros ->. apply elements_empty.
Qed.

Lemma for_each_ok {A B} (f : A -> result B) (g : A -> B) (l : list A) :
  (∀ x, x ∈ l → f x = Ok (g x)) → for_each f l = Ok (map g l).
Proof.
  induction l as [|x l IH]; intros H; simpl; [done|].
  rewrite H by left. simpl. rewrite IH; [done|].
  intros y Hy. apply H. by right.
Qed.

Lemma for_in_raise {A S} (l : list A) (s : S) (body : S -> A -> result S) x :
  x ∈ l → (∀ s', ∃ e, body s' x = Raise e) → ∃ e, for_in l s body = Raise e.
Proof.
  intros Hin Hbad. revert s.
  induction l as [|y l IH]; intros s; [by apply elem_of_nil in Hin|].
  simpl. apply elem_of_cons in Hin as [<-|Hin].
  - destruct (Hbad s) as [e ->]. by exists e.
  - destruct (body s y) as [s'|e]; simpl; [by apply IH | by exists e].
Qed.

(** ** The set-parity check always returns *)

(** The two lookups by uid inside the check cannot fail, so the check
    always returns. *)
Lemma checkModelParity_returns engineMetrics dynamodbMetrics verbose :
  _checkModelParity engineMetrics dynamodbMetrics verbose
  = Ok ([], parityErrors engineMetrics dynamodbMetrics).
Proof.
  unfold _checkModelParity, parityErrors, notInDynamodbFinding,
    notInRepositoryFinding, inRepositoryButNotInDynamodb,
    inDynamodbButNotInRepository.
  set (A := activeModelsMap engineMetrics).
  set (D := dynamodbModelsMap dynamodbMetrics).
  assert (HA : for_each
                 (fun uid => obj ← dict_getitem A uid;
                             Ok (notInDynamodbLine uid (e_name obj)))
                 (elements (dom A ∖ dom D))
               = Ok (map (fun uid =>
                            notInDynamodbLine uid
                              (activeName engineMetrics uid))
                       (elements (dom A ∖ dom D)))).
  { apply for_each_ok. intros uid Hin.
    apply elem_of_elements, elem_of_difference in Hin as [Hin _].
    apply elem_of_dom in Hin as [obj Hobj].
    unfold dict_getitem, activeName. fold A. by rewrite Hobj. }
  assert (HD : for_each
                 (fun uid => obj ← dict_getitem D uid;
                             Ok (notInRepositoryLine uid (d_name obj)))
                 (elements (dom D ∖ dom A))
               = Ok (map (fun uid =>
                            notInRepositoryLine uid
                              (dynamodbName dynamodbMetrics uid))
                       (elements (dom D ∖ dom A)))).
  { apply for_each_ok. intros uid Hin.
    apply elem_of_elements, elem_of_difference in Hin as [Hin _].
    apply elem_of_dom in Hin as [obj Hobj].
    unfold dict_getitem, dynamodbName. fold D. by rewrite Hobj. }
  rewrite HA, HD.
  destruct (truthy (elements (dom A ∖ dom D)));
    destruct (truthy (elements (dom D ∖ dom A))); reflexivity.
Qed.

(** ** The two captions of the set-parity check never coincide *)

Lemma skip_digits_uint (d : Decimal.uint) (s : string) :
  skip_digits (NilEmpty.string_of_uint d +:+ s) = skip_digits s.
Proof. induction d; simpl; auto. Qed.

Lemma skip_digits_str_nat (n : nat) (s : string) :
  skip_digits (str_nat n +:+ s) = skip_digits s.
Proof. apply skip_digits_uint. Qed.

Lemma parity_captions_differ (n m : nat) :
  notInDynamodbCaption n ≠ notInRepositoryCaption m.
Proof.
  unfold notInDynamodbCaption, notInRepositoryCaption. intros H.
  apply (inj (String.app "There are ")) in H.
  apply (f_equal skip_digits) in H.
  rewrite !skip_digits_str_nat in H. vm_compute in H. discriminate H.
Qed.

(** ** The result code *)

(** C1: the result code is 1 exactly when there is at least one error
    finding, or at least one warning finding while warnings count as
    errors, and it is 0 in every other case; [checkAndReport] returns
    this code for the findings of [_runAllChecks]. *)
Theorem verdict_iff :
  ∀ (json_loads : string -> result pyval)
    (warnings errors : list finding) (warningsAsErrors : bool),
    (verdict warnings errors warningsAsErrors = 1%Z ↔
       errors ≠ [] ∨ (warnings ≠ [] ∧ warningsAsErrors = true)) ∧
    (verdict warnings errors warningsAsErrors = 0%Z ↔
       ¬ (errors ≠ [] ∨ (warnings ≠ [] ∧ warningsAsErrors = true))) ∧
    (∀ st verbose,
        (checkAndReport json_loads st verbose warningsAsErrors).2
        = match (_runAllChecks json_loads (engineRows st) (scanRows st)
                   verbose).2 with
          | Ok (ws, es) => Ok (verdict ws es warningsAsErrors)
          | Raise e => Raise e
          end).
Proof.
  intros json_loads warnings errors strict. split; [|split].
  - unfold verdict. rewrite <- !truthy_true.
    destruct (truthy errors), (truthy warnings), strict; simpl;
      naive_solver.
  - unfold verdict. rewrite <- !truthy_true.
    destruct (truthy errors), (truthy warnings), strict; simpl;
      naive_solver.
  - intros st verbose. unfold checkAndReport, _getMetricsFromDynamodb.
    destruct (_runAllChecks json_loads (engineRows st) (scanRows st) verbose)
      as [log2 [[ws es]|e]]; reflexivity.
Qed.

(** ** Failed-state detection *)

(** C5: the check returns no error finding, and exactly one warning
    finding when some record has status ERROR and none otherwise; the
    finding aggregates the records with status ERROR in input order,
    its caption gives their number, and its detail has one line per
    record with uid, name and message. *)
Theorem checkFailedModels_spec :
  ∀ (engineMetrics : list EngineRow) (verbose : bool),
    let failed := errorModels engineMetrics in
    (∀ obj, obj ∈ failed ↔ obj ∈ engineMetrics ∧ e_status obj = ERROR) ∧
    failed `sublist_of` engineMetrics ∧
    (_checkFailedModels engineMetrics verbose).2 = [] ∧
    (((¬ ∃ obj, obj ∈ engineMetrics ∧ e_status obj = ERROR) ∧
      (_checkFailedModels engineMetrics verbose).1 = [])
     ∨
     ((∃ obj, obj ∈ engineMetrics ∧ e_status obj = ERROR) ∧
      (_checkFailedModels engineMetrics verbose).1
      = [(str_nat (length failed) +:+ " models in ERROR state",
          join nl
            (map (fun obj =>
                    "WARNING - model in error state: " +:+
                    repr_str_list
                      [e_uid obj; e_name obj; str_opt (e_message obj)])
               failed))])).
Proof.
  intros engineMetrics verbose failed.
  assert (Hmem : ∀ obj, obj ∈ failed ↔
                        obj ∈ engineMetrics ∧ e_status obj = ERROR).
  { intros obj. unfold failed, errorModels. rewrite list_elem_of_filter.
    tauto. }
  split; [exact Hmem|]. split; [apply sublist_filter|].
  split; [reflexivity|].
  unfold _checkFailedModels. fold failed.
  destruct failed as [|obj rest] eqn:E; simpl.
  - left. split; [|done]. intros (obj & Hobj). apply Hmem in Hobj.
    by apply elem_of_nil in Hobj.
  - right. split; [|done]. exists obj. apply Hmem. by left.
Qed.

(** ** Verbose mode *)

(** C9: for the same two populations the findings returned by
    [_runAllChecks] and the result of [checkAndReport] (result code or
    exception) do not depend on the verbose flag. *)
Theorem verbose_does_not_change_outcome :
  ∀ (json_loads : string -> result pyval) (st : Stores)
    (engineMetrics : list EngineRow) (dynamodbMetrics : list DynamoRow)
    (warningsAsErrors verbose1 verbose2 : bool),
    (_runAllChecks json_loads engineMetrics dynamodbMetrics verbose1).2
    = (_runAllChecks json_loads engineMetrics dynamodbMetrics verbose2).2 ∧
    (checkAndReport json_loads st verbose1 warningsAsErrors).2
    = (checkAndReport json_loads st verbose2 warningsAsErrors).2.
Proof.
  intros json_loads st engineMetrics dynamodbMetrics strict v1 v2.
  assert (Hrun : ∀ e d,
             (_runAllChecks json_loads e d v1).2
             = (_runAllChecks json_loads e d v2).2) by reflexivity.
  split; [apply Hrun|].
  unfold checkAndReport, _getMetricsFromDynamodb.
  specialize (Hrun (engineRows st) (scanRows st)).
  destruct (_runAllChecks json_loads (engineRows st) (scanRows st) v1)
    as [l1 r1],
    (_runAllChecks json_loads (engineRows st) (scanRows st) v2) as [l2 r2].
  simpl in Hrun. subst r2. destruct r1 as [[ws es]|e]; reflexivity.
Qed.

(** ** Set parity *)

Lemma truthy_elements_exists (s : gset string) :
  truthy (elements s) = true ↔ ∃ x, x ∈ s.
Proof.
  rewrite truthy_elements. split.
  - intros H. by apply set_choose_L.
  - intros [x Hx] ->. by apply not_elem_of_empty in Hx.
Qed.

Lemma elem_of_inRepositoryButNotInDynamodb engineMetrics dynamodbMetrics uid :
  uid ∈ inRepositoryButNotInDynamodb engineMetrics dynamodbMetrics
  ↔ isActiveUid engineMetrics uid ∧ ¬ isMirrorUid dynamodbMetrics uid.
Proof.
  unfold inRepositoryButNotInDynamodb.
  by rewrite elem_of_difference, elem_of_dom_activeModelsMap,
    elem_of_dom_dynamodbModelsMap.
Qed.

Lemma elem_of_inDynamodbButNotInRepository engineMetrics dynamodbMetrics uid :
  uid ∈ inDynamodbButNotInRepository engineMetrics dynamodbMetrics
  ↔ isMirrorUid dynamodbMetrics uid ∧ ¬ isActiveUid engineMetrics uid.
Proof.
  unfold inDynamodbButNotInRepository.
  by rewrite elem_of_difference, elem_of_dom_activeModelsMap,
    elem_of_dom_dynamodbModelsMap.
Qed.

Lemma parity_findings_differ engineMetrics dynamodbMetrics :
  notInDynamodbFinding engineMetrics dynamodbMetrics
  ≠ notInRepositoryFinding engineMetrics dynamodbMetrics.
Proof.
  unfold notInDynamodbFinding, notInRepositoryFinding. intros H.
  apply (f_equal fst) in H. cbn [fst] in H.
  exact (parity_captions_differ _ _ H).
Qed.

Lemma same_keys_iff (X Y : gset string) :
  X ∖ Y = ∅ ∧ Y ∖ X = ∅ ↔ X = Y.
Proof.
  split.
  - intros [HXY HYX]. apply set_eq. intros x. split; intros Hx.
    + destruct (decide (x ∈ Y)) as [|Hn]; [done|].
      assert (x ∈ X ∖ Y) as Hd by (by apply elem_of_difference).
      rewrite HXY in Hd. by apply not_elem_of_empty in Hd.
    + destruct (decide (x ∈ X)) as [|Hn]; [done|].
      assert (x ∈ Y ∖ X) as Hd by (by apply elem_of_difference).
      rewrite HYX in Hd. by apply not_elem_of_empty in Hd.
  - intros ->. split; apply set_eq; intros x;
      rewrite elem_of_difference; split; try tauto;
      intros []%not_elem_of_empty.
Qed.

(** C4: the set-parity check returns, with no warning; it has no
    finding exactly when the uids of ACTIVE engine records are the uids
    of the DynamoDB items; it has the finding for active models missing
    from DynamoDB exactly when some ACTIVE uid is not in DynamoDB, and
    the finding for UIDs not among active models exactly when some
    DynamoDB uid is not an ACTIVE uid; it has no other finding. *)
Theorem checkModelParity_spec :
  ∀ (engineMetrics : list EngineRow) (dynamodbMetrics : list DynamoRow)
    (verbose : bool),
  ∃ errors,
    _checkModelParity engineMetrics dynamodbMetrics verbose = Ok ([], errors) ∧
    (errors = [] ↔
       ∀ uid, isActiveUid engineMetrics uid ↔ isMirrorUid dynamodbMetrics uid) ∧
    (notInDynamodbFinding engineMetrics dynamodbMetrics ∈ errors ↔
       ∃ uid, isActiveUid engineMetrics uid ∧
              ¬ isMirrorUid dynamodbMetrics uid) ∧
    (notInRepositoryFinding engineMetrics dynamodbMetrics ∈ errors ↔
       ∃ uid, isMirrorUid dynamodbMetrics uid ∧
              ¬ isActiveUid engineMetrics uid) ∧
    (∀ f, f ∈ errors ↔
          (f = notInDynamodbFinding engineMetrics dynamodbMetrics ∧
           notInDynamodbFinding engineMetrics dynamodbMetrics ∈ errors) ∨
          (f = notInRepositoryFinding engineMetrics dynamodbMetrics ∧
           notInRepositoryFinding engineMetrics dynamodbMetrics ∈ errors)) ∧
    NoDup errors.
Proof.
  intros e d verbose. exists (parityErrors e d).
  split; [apply checkModelParity_returns|].
  pose proof (parity_findings_differ e d) as Hne.
  pose proof (truthy_elements_exists (inRepositoryButNotInDynamodb e d)) as HA.
  pose proof (truthy_elements_exists (inDynamodbButNotInRepository e d)) as HD.
  setoid_rewrite elem_of_inRepositoryButNotInDynamodb in HA.
  setoid_rewrite elem_of_inDynamodbButNotInRepository in HD.
  assert (Hsame : (∀ uid, isActiveUid e uid ↔ isMirrorUid d uid) ↔
                  truthy (elements (inRepositoryButNotInDynamodb e d)) = false ∧
                  truthy (elements (inDynamodbButNotInRepository e d)) = false).
  { rewrite !truthy_elements_false.
    unfold inRepositoryButNotInDynamodb, inDynamodbButNotInRepository.
    rewrite same_keys_iff. split.
    - intros H. apply set_eq. intros uid.
      by rewrite elem_of_dom_activeModelsMap, elem_of_dom_dynamodbModelsMap.
    - intros H uid.
      by rewrite <- elem_of_dom_activeModelsMap,
        <- elem_of_dom_dynamodbModelsMap, H. }
  unfold parityErrors.
  set (fA := notInDynamodbFinding e d) in *.
  set (fD := notInRepositoryFinding e d) in *.
  clearbody fA fD.
  rewrite <- HA, <- HD, Hsame.
  destruct (truthy (elements (inRepositoryButNotInDynamodb e d)));
    destruct (truthy (elements (inDynamodbButNotInRepository e d)));
    simpl; clear HA HD Hsame.
  all: split_and!; try (intros f).
  all: rewrite ?elem_of_cons, ?elem_of_nil, ?NoDup_cons, ?NoDup_nil,
         ?elem_of_cons, ?elem_of_nil.
  all: naive_solver.
Qed.

Lemma unique_uid_same_record (engineMetrics : list EngineRow) obj obj' :
  NoDup (e_uid <$> engineMetrics) →
  obj ∈ engineMetrics → obj' ∈ engineMetrics → e_uid obj' = e_uid obj →
  obj' = obj.
Proof.
  intros Hnd Hin Hin' Huid.
  pose proof (dictBy_lookup_unique e_uid engineMetrics obj Hnd Hin) as H.
  pose proof (dictBy_lookup_unique e_uid engineMetrics obj' Hnd Hin') as H'.
  rewrite Huid in H'. congruence.
Qed.

Lemma rows_for_keys {A} (key : A -> string) (rows : list A)
  (keys : list string) :
  (∀ k, k ∈ keys → k ∈ dom (dictBy key rows)) →
  ∃ xs, Forall2 (fun k x => dictBy key rows !! k = Some x) keys xs.
Proof.
  induction keys as [|k keys IH]; intros Hdom.
  - exists []. constructor.
  - destruct IH as [xs Hxs]; [intros k' Hk'; apply Hdom; by right|].
    assert (k ∈ dom (dictBy key rows)) as [x Hx]%elem_of_dom
        by (apply Hdom; by left).
    exists (x :: xs). by constructor.
Qed.

Lemma Forall2_map_eq {A B C} (R : A -> B -> Prop) (f : A -> C) (g : B -> C)
  (l : list A) (xs : list B) :
  Forall2 R l xs → (∀ k x, R k x → f k = g x) → map f l = map g xs.
Proof.
  intros HF Hfg. induction HF as [|k x l xs HR _ IH]; simpl; [done|].
  by rewrite (Hfg k x HR), IH.
Qed.

Lemma Forall2_elem_of_r {A B} (R : A -> B -> Prop) (l : list A)
  (xs : list B) x :
  Forall2 R l xs → x ∈ xs → ∃ k, k ∈ l ∧ R k x.
Proof.
  intros HF. induction HF as [|k y l xs HR _ IH]; intros Hin.
  - by apply elem_of_nil in Hin.
  - apply elem_of_cons in Hin as [->|Hin].
    + exists k. split; [by left|done].
    + destruct (IH Hin) as (k' & Hk' & HR'). exists k'.
      split; [by right|done].
Qed.

Lemma Forall2_elem_of_l {A B} (R : A -> B -> Prop) (l : list A)
  (xs : list B) k :
  Forall2 R l xs → k ∈ l → ∃ x, x ∈ xs ∧ R k x.
Proof.
  intros HF. induction HF as [|k' y l xs HR _ IH]; intros Hin.
  - by apply elem_of_nil in Hin.
  - apply elem_of_cons in Hin as [->|Hin].
    + exists y. split; [by left|done].
    + destruct (IH Hin) as (x & Hx & HR'). exists x.
      split; [by right|done].
Qed.

(** The finding for active models that are not in DynamoDB, as text. *)
Lemma notInDynamodbFinding_text e d :
  ∃ objs,
    Forall2 (fun uid obj => activeModelsMap e !! uid = Some obj)
      (elements (inRepositoryButNotInDynamodb e d)) objs ∧
    notInDynamodbFinding e d
    = ("There are " +:+ str_nat (length objs) +:+
       " active models in Taurus Engine repository that are not in DynamoDB",
       join nl
         (map (fun obj =>
                 "ERROR - model not in DynamoDB: " +:+
                 repr_str_list [e_uid obj; e_name obj]) objs)).
Proof.
  destruct (rows_for_keys e_uid (filter (fun obj => e_status obj = ACTIVE) e)
              (elements (inRepositoryButNotInDynamodb e d))) as [objs Hobjs].
  { intros uid Hin. apply elem_of_elements in Hin.
    unfold inRepositoryButNotInDynamodb in Hin.
    apply elem_of_difference in Hin as [Hin _]. exact Hin. }
  exists objs. split; [exact Hobjs|].
  unfold notInDynamodbFinding, notInDynamodbCaption. f_equal.
  - rewrite <- (Forall2_length _ _ _ Hobjs). reflexivity.
  - f_equal. apply (Forall2_map_eq _ _ _ _ _ Hobjs).
    intros uid obj Hobj. unfold activeName, notInDynamodbLine.
    fold (activeModelsMap e) in Hobj. rewrite Hobj.
    destruct (activeModelsMap_lookup _ _ _ Hobj) as (_ & <- & _).
    reflexivity.
Qed.

(** The finding for DynamoDB uids that are not among the active models,
    as text. *)
Lemma notInRepositoryFinding_text e d :
  ∃ rows,
    Forall2 (fun uid row => dynamodbModelsMap d !! uid = Some row)
      (elements (inDynamodbButNotInRepository e d)) rows ∧
    notInRepositoryFinding e d
    = ("There are " +:+ str_nat (length rows) +:+
       " model UIDs in DynamoDB that are not among active models in " +:+
       "Taurus Engine repository",
       join nl
         (map (fun row =>
                 "ERROR - model UID not in Taurus Engine repository: " +:+
                 repr_str_list [d_uid row; d_name row]) rows)).
Proof.
  destruct (rows_for_keys d_uid d
              (elements (inDynamodbButNotInRepository e d))) as [rows Hrows].
  { intros uid Hin. apply elem_of_elements in Hin.
    unfold inDynamodbButNotInRepository in Hin.
    apply elem_of_difference in Hin as [Hin _]. exact Hin. }
  exists rows. split; [exact Hrows|].
  unfold notInRepositoryFinding, notInRepositoryCaption. f_equal.
  - rewrite <- (Forall2_length _ _ _ Hrows). reflexivity.
  - f_equal. apply (Forall2_map_eq _ _ _ _ _ Hrows).
    intros uid row Hrow. unfold dynamodbName, notInRepositoryLine.
    fold (dynamodbModelsMap d) in Hrow. rewrite Hrow.
    destruct (dynamodbModelsMap_lookup _ _ _ Hrow) as (_ & <-).
    reflexivity.
Qed.

(** C10: the orphan side is taken against the ACTIVE records only. With
    unique uids in the engine population, a uid that is in DynamoDB and
    whose engine record has a status other than ACTIVE is among the uids
    not in the repository; the check returns the error finding for
    them, whose caption counts the DynamoDB items it lists and whose
    detail has one line per listed item, with the uid and the name of
    the item; and an item with that uid is listed. *)
Theorem non_active_record_is_orphan :
  ∀ (engineMetrics : list EngineRow) (dynamodbMetrics : list DynamoRow)
    (verbose : bool) (obj : EngineRow) (row : DynamoRow),
    NoDup (e_uid <$> engineMetrics) →
    obj ∈ engineMetrics →
    e_status obj ≠ ACTIVE →
    row ∈ dynamodbMetrics →
    d_uid row = e_uid obj →
    e_uid obj ∈ inDynamodbButNotInRepository engineMetrics dynamodbMetrics ∧
    ∃ errors listed item,
      _checkModelParity engineMetrics dynamodbMetrics verbose
      = Ok ([], errors) ∧
      ("There are " +:+ str_nat (length listed) +:+
       " model UIDs in DynamoDB that are not among active models in " +:+
       "Taurus Engine repository",
       join nl
         (map (fun r =>
                 "ERROR - model UID not in Taurus Engine repository: " +:+
                 repr_str_list [d_uid r; d_name r]) listed)) ∈ errors ∧
      item ∈ listed ∧
      item ∈ dynamodbMetrics ∧
      d_uid item = e_uid obj.
Proof.
  intros e d verbose obj row Hnd Hobj Hst Hrow Huid.
  assert (Horphan : e_uid obj ∈ inDynamodbButNotInRepository e d).
  { apply elem_of_inDynamodbButNotInRepository. split.
    - by exists row.
    - intros (obj' & Hin' & Huid' & Hact).
      assert (obj' = obj) by by eapply unique_uid_same_record.
      congruence. }
  split; [exact Horphan|].
  destruct (notInRepositoryFinding_text e d) as (listed & Hlisted & Htext).
  destruct (Forall2_elem_of_l _ _ _ (e_uid obj) Hlisted) as (item & Hin & Hitem).
  { by apply elem_of_elements. }
  destruct (dynamodbModelsMap_lookup _ _ _ Hitem) as (Hind & Hk).
  exists (parityErrors e d), listed, item.
  split; [apply checkModelParity_returns|].
  split_and!; try done.
  rewrite <- Htext. unfold parityErrors.
  assert (truthy (elements (inDynamodbButNotInRepository e d)) = true) as ->.
  { apply truthy_elements_exists. by exists (e_uid obj). }
  apply elem_of_app. right. by left.
Qed.

(** ** Attribute parity *)

Lemma ne_str_true (v : pyval) (s : string) :
  ne_str v s = true ↔ v ≠ PStr s.
Proof.
  destruct v; simpl; try (split; [intros _; discriminate | done]).
  rewrite negb_true_iff, String.eqb_neq. split; congruence.
Qed.

Lemma for_in_collect_ok {A B} (step : A -> result B) (g : A -> B)
  (keep : B -> bool) (body : list (A * B) -> A -> result (list (A * B)))
  (l : list A) (acc : list (A * B)) :
  (∀ acc x, body acc x
            = y ← step x; if keep y then Ok (acc ++ [(x, y)]) else Ok acc) →
  (∀ x, x ∈ l → step x = Ok (g x)) →
  for_in l acc body
  = Ok (acc ++ filter (fun p => keep p.2 = true) (map (fun x => (x, g x)) l)).
Proof.
  intros Hbody. revert acc.
  induction l as [|x l IH]; intros acc Hstep; simpl.
  - by rewrite app_nil_r.
  - rewrite Hbody, Hstep by left. simpl.
    rewrite filter_cons. simpl.
    destruct (keep (g x)) eqn:Hk.
    + rewrite decide_True by done. simpl. rewrite IH.
      * by rewrite <- app_assoc.
      * intros y Hy. apply Hstep. by right.
    + rewrite decide_False by done. simpl. apply IH.
      intros y Hy. apply Hstep. by right.
Qed.

Lemma for_in_collect_inv {A B} (step : A -> result B)
  (keep : B -> bool) (body : list (A * B) -> A -> result (list (A * B)))
  (l : list A) (acc res : list (A * B)) :
  (∀ acc x, body acc x
            = y ← step x; if keep y then Ok (acc ++ [(x, y)]) else Ok acc) →
  for_in l acc body = Ok res →
  ∀ p, p ∈ res → p ∈ acc ∨ (p.1 ∈ l ∧ step p.1 = Ok p.2 ∧ keep p.2 = true).
Proof.
  intros Hbody. revert acc.
  induction l as [|x l IH]; intros acc Hres p Hp; simpl in Hres.
  - injection Hres as <-. by left.
  - rewrite Hbody in Hres. destruct (step x) as [y|e] eqn:Hx; [|done].
    simpl in Hres. destruct (keep y) eqn:Hk; simpl in Hres.
    + destruct (IH _ Hres p Hp) as [Hin|(Hin & Hs & Hkp)].
      * apply elem_of_app in Hin as [Hin|Hin]; [by left|].
        apply list_elem_of_singleton in Hin as ->. right. simpl.
        split; [by left|done].
      * right. split; [by right|done].
    + destruct (IH _ Hres p Hp) as [Hin|(Hin & Hs & Hkp)]; [by left|].
      right. split; [by right|done].
Qed.

Section AttributeParity.

Variable json_loads : string -> result pyval.

Lemma mismatches_body engineMetrics dynamodbMetrics
  (acc : list (string * list diff)) (uid : string) :
  (activeModel ← dict_getitem (activeModelsMap engineMetrics) uid;
   dynamodbModel ← dict_getitem (dynamodbModelsMap dynamodbMetrics) uid;
   diffs ← modelDiffs json_loads activeModel dynamodbModel;
   if truthy diffs then Ok (acc ++ [(uid, diffs)]) else Ok acc)
  = (diffs ← stepDiffs json_loads engineMetrics dynamodbMetrics uid;
     if truthy diffs then Ok (acc ++ [(uid, diffs)]) else Ok acc).
Proof.
  unfold stepDiffs.
  destruct (dict_getitem (activeModelsMap engineMetrics) uid); [|done].
  simpl.
  destruct (dict_getitem (dynamodbModelsMap dynamodbMetrics) uid); done.
Qed.

Lemma modelDiffs_fields (a : EngineRow) (m : DynamoRow) mt mtn sym :
  userInfoFields json_loads (e_parameters a) = Ok (mt, mtn, sym) →
  ∃ diffs, modelDiffs json_loads a m = Ok diffs ∧
           (truthy diffs = true ↔ fieldsDiffer a (mt, mtn, sym) m).
Proof.
  unfold userInfoFields, modelDiffs, fieldsDiffer.
  destruct (json_loads (e_parameters a)) as [cfg|]; [simpl|done].
  destruct (getitem cfg "metricSpec") as [spec|]; [simpl|done].
  destruct (getitem spec "userInfo") as [ui|]; [simpl|done].
  destruct (getitem ui "metricType") as [mt'|]; [simpl|done].
  destruct (getitem ui "metricTypeName") as [mtn'|]; [simpl|done].
  destruct (getitem ui "symbol") as [sym'|]; [simpl|done].
  intros [= -> -> ->]. eexists. split; [reflexivity|].
  rewrite <- !ne_str_true, <- !String.eqb_neq, <- !negb_true_iff.
  destruct (negb (e_name a =? d_name m)%string),
    (negb (e_server a =? d_display_name m)%string),
    (ne_str mt (d_metricType m)), (ne_str mtn (d_metricTypeName m)),
    (ne_str sym (d_symbol m)); simpl; naive_solver.
Qed.

Lemma modelDiffs_malformed (a : EngineRow) (m : DynamoRow) :
  malformed json_loads (e_parameters a) →
  ∃ e, modelDiffs json_loads a m = Raise e.
Proof.
  unfold malformed, modelDiffs.
  intros [[e He]|(cfg & e & Hcfg & He)].
  - rewrite He. by exists e.
  - rewrite Hcfg. simpl.
    destruct (getitem cfg "metricSpec") as [spec|e']; simpl in *.
    + rewrite He. by exists e.
    + by exists e'.
Qed.

End AttributeParity.

Lemma elem_of_commonMetricIds engineMetrics dynamodbMetrics uid :
  uid ∈ commonMetricIds engineMetrics dynamodbMetrics ↔
  ∃ a m, activeModelsMap engineMetrics !! uid = Some a ∧
         dynamodbModelsMap dynamodbMetrics !! uid = Some m.
Proof.
  unfold commonMetricIds. rewrite elem_of_intersection, !elem_of_dom.
  unfold is_Some. naive_solver.
Qed.

Lemma stepDiffs_lookup json_loads engineMetrics dynamodbMetrics uid a m :
  activeModelsMap engineMetrics !! uid = Some a →
  dynamodbModelsMap dynamodbMetrics !! uid = Some m →
  stepDiffs json_loads engineMetrics dynamodbMetrics uid
  = modelDiffs json_loads a m.
Proof.
  intros Ha Hm. unfold stepDiffs, dict_getitem. by rewrite Ha, Hm.
Qed.


(** ** Writing the mismatch finding *)

Lemma for_each_cases {A B} (f : A -> result B) (g : A -> B)
  (bad : A -> bool) (e0 : exc) (l : list A) :
  (∀ x, f x = if bad x then Raise e0 else Ok (g x)) →
  for_each f l = if existsb bad l then Raise e0 else Ok (map g l).
Proof.
  intros H. induction l as [|x l IH]; simpl; [done|].
  rewrite H. destruct (bad x); simpl; [done|].
  rewrite IH. by destruct (existsb bad l).
Qed.

Lemma strItems_cases (d : diff) :
  strItems d
  = if unprintable d then Raise UnicodeEncodeError else Ok (diffStrings d).
Proof.
  destruct d as [[field ev] dv].
  unfold strItems, strEngineValue, unprintable, diffStrings.
  destruct (isColumn field); simpl; [done|].
  destruct ev as [| | |s| |]; simpl; try done.
  by destruct (is_ascii s).
Qed.

Lemma renderMismatchLine_cases (uid : string) (diffs : list diff) :
  renderMismatchLine uid diffs
  = if existsb unprintable diffs then Raise UnicodeEncodeError
    else Ok (mismatchLine uid diffs).
Proof.
  unfold renderMismatchLine, mismatchLine.
  rewrite (for_each_cases _ diffStrings unprintable UnicodeEncodeError _
             strItems_cases).
  destruct (existsb unprintable diffs); simpl; [done|].
  by rewrite map_map.
Qed.

Lemma renderMismatches_cases (ms : list (string * list diff)) :
  renderMismatches ms
  = if unprintableMismatch ms then Raise UnicodeEncodeError
    else Ok (mismatchFinding ms).
Proof.
  unfold renderMismatches, mismatchFinding, unprintableMismatch.
  rewrite (for_each_cases _
             (fun p : string * list diff => mismatchLine p.1 p.2)
             (fun p : string * list diff => existsb unprintable p.2)
             UnicodeEncodeError).
  - destruct (existsb _ ms); simpl; [done|]. do 3 f_equal.
    apply map_ext. by intros [uid diffs].
  - intros [uid diffs]. apply renderMismatchLine_cases.
Qed.

Lemma unprintableMismatch_nil_false (ms : list (string * list diff)) :
  truthy ms = false → unprintableMismatch ms = false.
Proof. by destruct ms. Qed.

Lemma attribute_check_result json_loads e d verbose :
  _checkModelAttributeParity json_loads e d verbose
  = match mismatches json_loads e d with
    | Ok ms =>
        if unprintableMismatch ms then Raise UnicodeEncodeError
        else Ok ([], if truthy ms then [mismatchFinding ms] else [])
    | Raise exc => Raise exc
    end.
Proof.
  unfold _checkModelAttributeParity.
  destruct (mismatches json_loads e d) as [ms|exc]; simpl; [|done].
  destruct (truthy ms) eqn:Ht; simpl.
  - rewrite renderMismatches_cases.
    by destruct (unprintableMismatch ms).
  - by rewrite unprintableMismatch_nil_false.
Qed.

(** C3: the claim does not hold of the code. The sample payload is
    well formed, uid 1 is common to both stores and its symbol differs
    between them, yet the check returns no finding naming uid 1: the
    decoded symbol has a character outside ASCII, and the conversion
    [str(item)] that writes the detail raises. *)
Theorem non_ascii_mismatch_is_not_reported :
  wellFormed NonAsciiSample.loads (e_parameters NonAsciiSample.activeRow) ∧
  "1" ∈ commonMetricIds [NonAsciiSample.activeRow] [NonAsciiSample.item] ∧
  (∃ a m fields,
      activeModelsMap [NonAsciiSample.activeRow] !! "1" = Some a ∧
      dynamodbModelsMap [NonAsciiSample.item] !! "1" = Some m ∧
      userInfoFields NonAsciiSample.loads (e_parameters a) = Ok fields ∧
      fieldsDiffer a fields m) ∧
  _checkModelAttributeParity NonAsciiSample.loads
    [NonAsciiSample.activeRow] [NonAsciiSample.item] false
  = Raise UnicodeEncodeError.
Proof.
  split_and!.
  - eexists. vm_compute. reflexivity.
  - apply elem_of_commonMetricIds.
    exists NonAsciiSample.activeRow, NonAsciiSample.item.
    split; vm_compute; reflexivity.
  - exists NonAsciiSample.activeRow, NonAsciiSample.item,
      (PStr "StockPrice", PStr "Stock Price", PStr NonAsciiSample.symbol).
    split_and!; [vm_compute; reflexivity ..|].
    do 4 right. vm_compute. discriminate.
  - vm_compute. reflexivity.
Qed.

(** C6: when the engine record examined for a uid of the intersection of
    the ACTIVE uids and the DynamoDB uids has a malformed parameters
    payload, the attribute-parity check raises; it returns no finding,
    and the exception reaches the callers [_runAllChecks] and
    [checkAndReport]. *)
Theorem malformed_payload_is_fatal :
  ∀ (json_loads : string -> result pyval)
    (engineMetrics : list EngineRow) (dynamodbMetrics : list DynamoRow)
    (verbose : bool) (uid : string) (activeModel : EngineRow),
    uid ∈ commonMetricIds engineMetrics dynamodbMetrics →
    activeModelsMap engineMetrics !! uid = Some activeModel →
    malformed json_loads (e_parameters activeModel) →
    ∃ exc,
      _checkModelAttributeParity json_loads engineMetrics dynamodbMetrics
        verbose = Raise exc ∧
      (_runAllChecks json_loads engineMetrics dynamodbMetrics verbose).2
      = Raise exc ∧
      ∀ st warningsAsErrors,
        engineRows st = engineMetrics → scanRows st = dynamodbMetrics →
        (checkAndReport json_loads st verbose warningsAsErrors).2
        = Raise exc.
Proof.
  intros json_loads e d verbose uid a Hcommon Ha Hbad.
  assert (Hloop : ∃ exc, mismatches json_loads e d = Raise exc).
  { unfold mismatches. apply for_in_raise with (x := uid).
    - by apply elem_of_elements.
    - intros acc. rewrite mismatches_body.
      apply elem_of_commonMetricIds in Hcommon as (a' & m & Ha' & Hm).
      rewrite (stepDiffs_lookup _ _ _ _ _ _ Ha' Hm).
      assert (a' = a) as -> by congruence.
      destruct (modelDiffs_malformed json_loads a m Hbad) as [exc ->].
      by exists exc. }
  destruct Hloop as [exc Hloop]. exists exc.
  assert (Hcheck : _checkModelAttributeParity json_loads e d verbose
                   = Raise exc).
  { unfold _checkModelAttributeParity. by rewrite Hloop. }
  assert (Hrun : (_runAllChecks json_loads e d verbose).2 = Raise exc).
  { unfold _runAllChecks. simpl.
    destruct (_checkFailedModels e verbose) as [ws es].
    rewrite checkModelParity_returns. simpl. by rewrite Hcheck. }
  split_and!; try done.
  intros st strict <- <-. unfold checkAndReport, _getMetricsFromDynamodb.
  destruct (_runAllChecks json_loads (engineRows st) (scanRows st) verbose)
    as [log r]. simpl in Hrun. by rewrite Hrun.
Qed.

(** ** Findings name input uids only *)

Lemma modelDiffs_field_names json_loads (a : EngineRow) (m : DynamoRow)
  (diffs : list diff) :
  modelDiffs json_loads a m = Ok diffs →
  ∀ t, t ∈ diffs →
       t.1.1 ∈ ["name"; "display_name"; "metricType"; "metricTypeName";
                "symbol"].
Proof.
  unfold modelDiffs.
  destruct (json_loads (e_parameters a)) as [cfg|]; simpl; [|done].
  destruct (getitem cfg "metricSpec") as [spec|]; simpl; [|done].
  destruct (getitem spec "userInfo") as [ui|]; simpl; [|done].
  destruct (getitem ui "metricType") as [mt|]; simpl; [|done].
  destruct (getitem ui "metricTypeName") as [mtn|]; simpl; [|done].
  destruct (getitem ui "symbol") as [sym|]; simpl; [|done].
  intros [= <-] t.
  destruct (negb (e_name a =? d_name m)%string),
    (negb (e_server a =? d_display_name m)%string),
    (ne_str mt (d_metricType m)), (ne_str mtn (d_metricTypeName m)),
    (ne_str sym (d_symbol m)); simpl;
    rewrite ?elem_of_cons, ?elem_of_nil; intros Ht;
    repeat (destruct Ht as [->|Ht]; [simpl; set_solver|]); done.
Qed.

Lemma mismatches_diffs json_loads e d ms uid diffs :
  mismatches json_loads e d = Ok ms →
  (uid, diffs) ∈ ms →
  uid ∈ commonMetricIds e d ∧
  stepDiffs json_loads e d uid = Ok diffs ∧ truthy diffs = true.
Proof.
  intros Hms Hp. unfold mismatches in Hms.
  destruct (for_in_collect_inv (stepDiffs json_loads e d) truthy
              _ _ _ _
              (fun acc x => mismatches_body json_loads e d acc x)
              Hms (uid, diffs) Hp) as [Hnil|(Hin & Hstep & Hk)].
  - by apply elem_of_nil in Hnil.
  - split; [by apply elem_of_elements in Hin|done].
Qed.

(** The finding for attribute mismatches, as text. *)
Lemma mismatchFinding_text (ms : list (string * list diff)) :
  mismatchFinding ms
  = (str_nat (length (map (fun p : string * list diff =>
                             (p.1, map diffStrings p.2)) ms)) +:+
     " models have attribute mismatch between Taurus Engine repository " +:+
     "and DynamoDB",
     join nl
       (map (fun '(uid, tuples) =>
               "ERROR - model " +:+ uid +:+
               " has attribute mismatch in Engine vs DynamoDB: [" +:+
               join ", " (map repr_str_tuple tuples) +:+ "]")
          (map (fun p : string * list diff => (p.1, map diffStrings p.2))
             ms))).
Proof.
  unfold mismatchFinding, mismatchCaption. rewrite length_map. f_equal.
  f_equal. rewrite map_map. apply map_ext. intros [uid diffs].
  unfold mismatchLine. simpl. by rewrite map_map.
Qed.

(** C8: every finding returned by the failed-state check, by the
    set-parity check and by the attribute-parity check is the text
    written out below: a caption with a count, and a detail with one
    line per reported row or uid, in which the uid stands. Each of these
    uids is the uid of an engine record or of a DynamoDB item of the
    input (a failed record and an active model missing from DynamoDB
    are engine records, an orphan is a DynamoDB item, a mismatch is on
    a uid of both), and the rest of a line is the name and message of
    that same row, or tuples of a field name and its two values. *)
Theorem findings_name_input_uids :
  ∀ (json_loads : string -> result pyval)
    (engineMetrics : list EngineRow) (dynamodbMetrics : list DynamoRow)
    (verbose : bool),
    (∀ f, f ∈ (_checkFailedModels engineMetrics verbose).1
              ++ (_checkFailedModels engineMetrics verbose).2 →
          ∃ objs,
            (∀ obj, obj ∈ objs → obj ∈ engineMetrics) ∧
            f = (str_nat (length objs) +:+ " models in ERROR state",
                 join nl
                   (map (fun obj =>
                           "WARNING - model in error state: " +:+
                           repr_str_list
                             [e_uid obj; e_name obj; str_opt (e_message obj)])
                      objs))) ∧
    (∀ ws es f,
        _checkModelParity engineMetrics dynamodbMetrics verbose
        = Ok (ws, es) →
        f ∈ ws ++ es →
        (∃ objs,
            (∀ obj, obj ∈ objs → obj ∈ engineMetrics) ∧
            f = ("There are " +:+ str_nat (length objs) +:+
                 " active models in Taurus Engine repository that are " +:+
                 "not in DynamoDB",
                 join nl
                   (map (fun obj =>
                           "ERROR - model not in DynamoDB: " +:+
                           repr_str_list [e_uid obj; e_name obj]) objs))) ∨
        (∃ rows,
            (∀ row, row ∈ rows → row ∈ dynamodbMetrics) ∧
            f = ("There are " +:+ str_nat (length rows) +:+
                 " model UIDs in DynamoDB that are not among active " +:+
                 "models in Taurus Engine repository",
                 join nl
                   (map (fun row =>
                           "ERROR - model UID not in Taurus Engine " +:+
                           "repository: " +:+
                           repr_str_list [d_uid row; d_name row]) rows)))) ∧
    (∀ ws es f,
        _checkModelAttributeParity json_loads engineMetrics dynamodbMetrics
          verbose = Ok (ws, es) →
        f ∈ ws ++ es →
        ∃ reported : list (string * list (list string)),
          (∀ uid tuples,
              (uid, tuples) ∈ reported →
              isEngineUid engineMetrics uid ∧
              isMirrorUid dynamodbMetrics uid ∧
              ∀ tuple, tuple ∈ tuples →
                ∃ field engineValue dynamodbValue,
                  tuple = [field; engineValue; dynamodbValue] ∧
                  field ∈ ["name"; "display_name"; "metricType";
                           "metricTypeName"; "symbol"]) ∧
          f = (str_nat (length reported) +:+
               " models have attribute mismatch between Taurus Engine " +:+
               "repository and DynamoDB",
               join nl
                 (map (fun '(uid, tuples) =>
                         "ERROR - model " +:+ uid +:+
                         " has attribute mismatch in Engine vs " +:+
                         "DynamoDB: [" +:+
                         join ", " (map repr_str_tuple tuples) +:+ "]")
                    reported))).
Proof.
  intros json_loads e d verbose. split_and!.
  - intros f Hf. unfold _checkFailedModels in Hf. simpl in Hf.
    rewrite app_nil_r in Hf.
    destruct (truthy (errorModels e)); simpl in Hf;
      [|by apply elem_of_nil in Hf].
    apply list_elem_of_singleton in Hf as ->.
    exists (errorModels e). split; [|reflexivity].
    by intros obj [_ Hin]%list_elem_of_filter.
  - intros ws es f Hret Hf. rewrite checkModelParity_returns in Hret.
    injection Hret as <- <-. simpl in Hf. unfold parityErrors in Hf.
    apply elem_of_app in Hf as [Hf|Hf].
    + destruct (truthy _); [|by apply elem_of_nil in Hf].
      apply list_elem_of_singleton in Hf as ->. left.
      destruct (notInDynamodbFinding_text e d) as (objs & Hobjs & ->).
      exists objs. split; [|reflexivity].
      intros obj Hin.
      destruct (Forall2_elem_of_r _ _ _ _ Hobjs Hin) as (uid & _ & Hobj).
      by destruct (activeModelsMap_lookup _ _ _ Hobj) as (? & _).
    + destruct (truthy _); [|by apply elem_of_nil in Hf].
      apply list_elem_of_singleton in Hf as ->. right.
      destruct (notInRepositoryFinding_text e d) as (rows & Hrows & ->).
      exists rows. split; [|reflexivity].
      intros row Hin.
      destruct (Forall2_elem_of_r _ _ _ _ Hrows Hin) as (uid & _ & Hrow).
      by destruct (dynamodbModelsMap_lookup _ _ _ Hrow) as (? & _).
  - intros ws es f Hret Hf. rewrite attribute_check_result in Hret.
    destruct (mismatches json_loads e d) as [ms|exc] eqn:Hms; [|done].
    destruct (unprintableMismatch ms); [done|].
    injection Hret as <- <-. simpl in Hf.
    destruct (truthy ms); [|by apply elem_of_nil in Hf].
    apply list_elem_of_singleton in Hf as ->.
    exists (map (fun p : string * list diff => (p.1, map diffStrings p.2))
              ms).
    split; [|apply mismatchFinding_text].
    intros uid tuples ([uid' diffs] & [= -> ->] & Hp)%list_elem_of_fmap.
    simpl.
    destruct (mismatches_diffs _ _ _ _ _ _ Hms Hp) as (Hc & Hstep & _).
    apply elem_of_commonMetricIds in Hc as (a & m & Ha & Hm).
    split_and!.
    + destruct (activeModelsMap_lookup _ _ _ Ha) as (? & ? & _).
      by exists a.
    + apply elem_of_dom_dynamodbModelsMap, elem_of_dom. eauto.
    + rewrite (stepDiffs_lookup _ _ _ _ _ _ Ha Hm) in Hstep.
      intros tuple ([[field ev] dv] & -> & Ht)%list_elem_of_fmap.
      exists field, (str_text ev), dv. split; [reflexivity|].
      apply (modelDiffs_field_names _ _ _ _ Hstep _ Ht).
Qed.

(** ** The monitor dispatcher *)

(** C7: a concrete monitor type that supplies no [dispatchNotification]
    cannot be instantiated: construction fails with the composition
    error and yields no instance on which [checkAll] could run. *)
Theorem abstract_type_cannot_be_constructed :
  ∀ (World : Type) (T : MonitorDispatcher.MonitorType World),
    MonitorDispatcher.dispatchNotification T = None →
    MonitorDispatcher.new T
    = inl MonitorDispatcher.AbstractTypeError ∧
    ∀ m, MonitorDispatcher.new T ≠ inr m.
Proof.
  intros World T Hnone. unfold MonitorDispatcher.new. rewrite Hnone.
  split; [reflexivity | discriminate].
Qed.

Section DispatcherFacts.

Import MonitorDispatcher.

Context {World : Type}.

Lemma elem_of_dedup (names : list string) (x : string) :
  x ∈ dedup names ↔ x ∈ names.
Proof.
  induction names as [|y names IH]; simpl; [done|].
  rewrite !elem_of_cons, list_elem_of_filter, IH.
  destruct (decide (x = y)); naive_solver.
Qed.

Lemma NoDup_dedup (names : list string) : NoDup (dedup names).
Proof.
  induction names as [|y names IH]; simpl; [constructor|].
  apply NoDup_cons. split.
  - rewrite list_elem_of_filter. naive_solver.
  - by apply NoDup_filter.
Qed.

Lemma bound_resolves (ms : list (string * CheckFn World)) (name : string) :
  name ∈ map fst ms → is_Some (bound ms name).
Proof.
  induction ms as [|[n fn] ms IH]; simpl.
  - intros []%elem_of_nil.
  - intros [->|Hin]%elem_of_cons.
    + destruct (bound ms n); [done|].
      by rewrite String.eqb_refl.
    + destruct (IH Hin) as [fn' ->]. done.
Qed.

(** The log after the run, for routines and a notification that record
    their calls. *)
Lemma runChecks_log (m : Monitor World) (log : World -> list Event)
  (names : list string) :
  (∀ name fn,
      bound (marked (monitorType m)) name = Some fn →
      ∀ w, log (fn w).1 = log w ++ [Invoked name (fn w).2]) →
  (∀ name fn exc w,
      log (notify m name fn exc w) = log w ++ [Notified name exc]) →
  (∀ name, name ∈ names → name ∈ map fst (marked (monitorType m))) →
  ∀ w, ∃ w' outcomes,
    runChecks m names w = inr w' ∧
    length outcomes = length names ∧
    log w' = log w ++ concat (zip_with callsOf names outcomes).
Proof.
  intros Hcheck Hnotify.
  induction names as [|name names IH]; intros Hreg w; simpl.
  - exists w, []. by rewrite app_nil_r.
  - destruct (bound_resolves _ name (Hreg name ltac:(by left))) as [fn Hfn].
    rewrite Hfn.
    assert (Hrest : ∀ n, n ∈ names → n ∈ map fst (marked (monitorType m)))
      by (intros n Hn; apply Hreg; by right).
    destruct (IH Hrest (runCheck m name fn w)) as (w' & outs & Hrun & Hlen & Hlog).
    assert (Hstep : log (runCheck m name fn w)
                    = log w ++ callsOf name (fn w).2).
    { unfold runCheck, callsOf. specialize (Hcheck name fn Hfn w).
      destruct (fn w) as [w1 [exc|]]; cbn [fst snd] in *.
      - by rewrite Hnotify, Hcheck, <- app_assoc.
      - done. }
    exists w', ((fn w).2 :: outs). split; [done|]. split; [simpl; lia|].
    rewrite Hlog, Hstep. cbn [zip_with concat].
    by rewrite <- app_assoc.
Qed.

Lemma invocations_calls (names : list string)
  (outcomes : list (option ExcInfo)) :
  length outcomes = length names →
  invocations (concat (zip_with callsOf names outcomes)) = names.
Proof.
  revert outcomes. induction names as [|n names IH]; intros [|o outs] Hlen;
    simpl in *; try done.
  unfold invocations in *. f_equal.
  destruct o; simpl; apply IH; lia.
Qed.

Lemma notifications_calls (names : list string)
  (outcomes : list (option ExcInfo)) :
  notifications (concat (zip_with callsOf names outcomes))
  = failures (concat (zip_with callsOf names outcomes)).
Proof.
  revert outcomes. induction names as [|n names IH]; intros [|o outs];
    simpl; try done.
  unfold notifications, failures in *.
  destruct o; simpl; by rewrite IH.
Qed.

End DispatcherFacts.

(** C2: let the check routines of a monitor and its notification record
    their calls, as the mocks of the unit tests do: a routine records
    that it was called and the failure it raised, if any, and
    [dispatchNotification] records the check and the failure it was
    called with. Then [checkAll()] returns normally, whatever the
    routines do, and after it the record holds, for each of the N
    registered names in registry order, one call of its routine,
    followed by one notification with that name and the raised failure
    (kind, message and trace) exactly when the routine raised, and
    nothing else. So every registered routine is invoked exactly once,
    also after a failing one, and the notification is called exactly
    once per routine that raised, K times in all. *)
Theorem checkAll_isolates_failures :
  ∀ (World : Type) (m : MonitorDispatcher.Monitor World)
    (log : World -> list MonitorDispatcher.Event) (w : World),
    (∀ name fn,
        MonitorDispatcher.bound
          (MonitorDispatcher.marked (MonitorDispatcher.monitorType m)) name
        = Some fn →
        ∀ w, log (fn w).1
             = log w ++ [MonitorDispatcher.Invoked name (fn w).2]) →
    (∀ name fn exc w,
        log (MonitorDispatcher.notify m name fn exc w)
        = log w ++ [MonitorDispatcher.Notified name exc]) →
    let names :=
      MonitorDispatcher.registry (MonitorDispatcher.monitorType m) in
    ∃ w' outcomes recorded,
      MonitorDispatcher.checkAll m w = inr w' ∧
      log w' = log w ++ recorded ∧
      length outcomes = length names ∧
      recorded
      = concat (zip_with MonitorDispatcher.callsOf names outcomes) ∧
      NoDup names ∧
      (∀ name, name ∈ names ↔
               name ∈ map fst (MonitorDispatcher.marked
                                 (MonitorDispatcher.monitorType m))) ∧
      MonitorDispatcher.invocations recorded = names ∧
      MonitorDispatcher.notifications recorded
      = MonitorDispatcher.failures recorded.
Proof.
  intros World m log w Hcheck Hnotify names.
  assert (Hreg : ∀ name, name ∈ names ↔
                         name ∈ map fst (MonitorDispatcher.marked
                                           (MonitorDispatcher.monitorType m))).
  { intros name. apply elem_of_dedup. }
  destruct (runChecks_log m log names Hcheck Hnotify
              (fun n Hn => proj1 (Hreg n) Hn) w)
    as (w' & outs & Hrun & Hlen & Hlog).
  exists w', outs,
    (concat (zip_with MonitorDispatcher.callsOf names outs)).
  split_and!; try done.
  - apply NoDup_dedup.
  - by apply invocations_calls.
  - apply notifications_calls.
Qed.

(** ** The theorems at the sample inputs *)

Lemma abstract_type_cannot_be_constructed_witness :
  MonitorDispatcher.dispatchNotification Samples.IncompleteMonitor = None ∧
  MonitorDispatcher.new Samples.IncompleteMonitor
  = inl MonitorDispatcher.AbstractTypeError.
Proof.
  split; [reflexivity|].
  apply (abstract_type_cannot_be_constructed nat Samples.IncompleteMonitor).
  reflexivity.
Defined.

Lemma checkAll_isolates_failures_witness :
  ∃ w',
    MonitorDispatcher.checkAll Samples.myMonitor [] = inr w' ∧
    w' = [MonitorDispatcher.Invoked "myCheck1" None;
          MonitorDispatcher.Invoked "myCheck" (Some Samples.myCheckFailed);
          MonitorDispatcher.Notified "myCheck" Samples.myCheckFailed].
Proof.
  assert (Hcheck : ∀ name fn,
             MonitorDispatcher.bound
               (MonitorDispatcher.marked
                  (MonitorDispatcher.monitorType Samples.myMonitor)) name
             = Some fn →
             ∀ w, id (fn w).1
                  = id w ++ [MonitorDispatcher.Invoked name (fn w).2]).
  { intros name fn.
    cbn [MonitorDispatcher.bound MonitorDispatcher.marked
         MonitorDispatcher.monitorType Samples.myMonitor Samples.MyMonitor].
    destruct (String.eqb_spec "myCheck" name) as [<-|Hne].
    - intros H w. injection H as <-. reflexivity.
    - destruct (String.eqb_spec "myCheck1" name) as [<-|Hne1].
      + intros H w. injection H as <-. reflexivity.
      + intros H. discriminate H. }
  assert (Hnotify : ∀ name fn exc w,
             id (MonitorDispatcher.notify Samples.myMonitor name fn exc w)
             = id w ++ [MonitorDispatcher.Notified name exc])
    by reflexivity.
  destruct (checkAll_isolates_failures _ Samples.myMonitor id [] Hcheck
              Hnotify) as (w' & outs & recorded & Hrun & Hlog & _).
  exists w'. split; [exact Hrun|].
  vm_compute in Hrun. injection Hrun as <-. reflexivity.
Defined.

Lemma malformed_payload_is_fatal_witness :
  "1" ∈ commonMetricIds [Samples.brokenRow] [Samples.item1] ∧
  activeModelsMap [Samples.brokenRow] !! "1" = Some Samples.brokenRow ∧
  malformed Samples.loads (e_parameters Samples.brokenRow) ∧
  ∃ exc,
    _checkModelAttributeParity Samples.loads [Samples.brokenRow]
      [Samples.item1] true = Raise exc.
Proof.
  assert (Hc : "1" ∈ commonMetricIds [Samples.brokenRow] [Samples.item1]).
  { apply elem_of_commonMetricIds.
    exists Samples.brokenRow, Samples.item1.
    split; vm_compute; reflexivity. }
  assert (Ha : activeModelsMap [Samples.brokenRow] !! "1"
               = Some Samples.brokenRow) by (vm_compute; reflexivity).
  assert (Hbad : malformed Samples.loads (e_parameters Samples.brokenRow)).
  { left. exists ValueError. vm_compute. reflexivity. }
  repeat (split; [assumption|]).
  destruct (malformed_payload_is_fatal Samples.loads [Samples.brokenRow]
              [Samples.item1] true "1" Samples.brokenRow Hc Ha Hbad)
    as (exc & Hcheck & _).
  by exists exc.
Defined.

Lemma non_active_record_is_orphan_witness :
  NoDup (e_uid <$> [Samples.activeRow; Samples.failedRow]) ∧
  Samples.failedRow ∈ [Samples.activeRow; Samples.failedRow] ∧
  e_status Samples.failedRow ≠ ACTIVE ∧
  Samples.item2 ∈ [Samples.item1; Samples.item2] ∧
  d_uid Samples.item2 = e_uid Samples.failedRow ∧
  "2" ∈ inDynamodbButNotInRepository
          [Samples.activeRow; Samples.failedRow]
          [Samples.item1; Samples.item2].
Proof.
  assert (Hnd : NoDup (e_uid <$> [Samples.activeRow; Samples.failedRow])).
  { apply (bool_decide_unpack _). vm_compute. reflexivity. }
  assert (Hobj : Samples.failedRow ∈ [Samples.activeRow; Samples.failedRow])
    by (right; left).
  assert (Hst : e_status Samples.failedRow ≠ ACTIVE) by discriminate.
  assert (Hrow : Samples.item2 ∈ [Samples.item1; Samples.item2])
    by (right; left).
  assert (Huid : d_uid Samples.item2 = e_uid Samples.failedRow)
    by reflexivity.
  repeat (split; [assumption|]).
  apply (non_active_record_is_orphan _ _ false _ _ Hnd Hobj Hst Hrow Huid).
Defined.

(** ** Further properties of the dictionaries *)

Lemma dictBy_snoc {A} (key : A -> string) (rows : list A) (x : A) :
  dictBy key (rows ++ [x]) = <[key x := x]> (dictBy key rows).
Proof. unfold dictBy. by rewrite foldl_app. Qed.

(** X1: in a dictionary built from rows, a key that no row has is
    absent, and a key that some row has maps to the last row with this
    key. *)
Theorem dictBy_last_row :
  ∀ (A : Type) (key : A -> string) (rows : list A) (k : string),
    match dictBy key rows !! k with
    | None => k ∉ key <$> rows
    | Some x =>
        ∃ before after,
          rows = before ++ x :: after ∧ key x = k ∧ k ∉ key <$> after
    end.
Proof.
  intros A key rows k. induction rows as [|y rows IH] using rev_ind.
  - unfold dictBy. simpl. rewrite lookup_empty. apply not_elem_of_nil.
  - rewrite dictBy_snoc. destruct (decide (key y = k)) as [<-|Hne].
    + rewrite lookup_insert_eq. exists rows, [].
      split_and!; [done..|]. apply not_elem_of_nil.
    + rewrite lookup_insert_ne by done.
      destruct (dictBy key rows !! k) as [x|].
      * destruct IH as (before & after & -> & Hk & Hafter).
        exists before, (after ++ [y]). split_and!; [|done|].
        -- by rewrite <- app_assoc.
        -- rewrite fmap_app, not_elem_of_app. split; [done|].
           simpl. rewrite list_elem_of_singleton. congruence.
      * rewrite fmap_app, not_elem_of_app. split; [done|].
        simpl. rewrite list_elem_of_singleton. congruence.
Qed.

(** X2: every uid that is ACTIVE in the engine or present in DynamoDB
    falls in exactly one of the three classes the checks work on: not in
    DynamoDB, not in the repository, or common to both; and the classes
    hold no other uid. *)
Theorem uid_classes_partition :
  ∀ (engineMetrics : list EngineRow) (dynamodbMetrics : list DynamoRow)
    (uid : string),
    let missing := inRepositoryButNotInDynamodb engineMetrics dynamodbMetrics in
    let orphan := inDynamodbButNotInRepository engineMetrics dynamodbMetrics in
    let common := commonMetricIds engineMetrics dynamodbMetrics in
    (uid ∈ missing ∨ uid ∈ orphan ∨ uid ∈ common ↔
     isActiveUid engineMetrics uid ∨ isMirrorUid dynamodbMetrics uid) ∧
    ¬ (uid ∈ missing ∧ uid ∈ orphan) ∧
    ¬ (uid ∈ missing ∧ uid ∈ common) ∧
    ¬ (uid ∈ orphan ∧ uid ∈ common).
Proof.
  intros e d uid missing orphan common.
  unfold missing, orphan, common, inRepositoryButNotInDynamodb,
    inDynamodbButNotInRepository, commonMetricIds.
  rewrite <- elem_of_dom_activeModelsMap, <- elem_of_dom_dynamodbModelsMap.
  rewrite !elem_of_difference, elem_of_intersection.
  destruct (decide (uid ∈ dom (activeModelsMap e)));
    destruct (decide (uid ∈ dom (dynamodbModelsMap d))); naive_solver.
Qed.

(** ** Further properties of the attribute comparison *)

Lemma modelDiffs_filter json_loads (a : EngineRow) (m : DynamoRow) fields :
  userInfoFields json_loads (e_parameters a) = Ok fields →
  modelDiffs json_loads a m
  = Ok (filter (fun t : diff => ne_str t.1.2 t.2 = true)
          (comparedFields a fields m)).
Proof.
  destruct fields as [[mt mtn] sym].
  unfold userInfoFields, modelDiffs, comparedFields.
  destruct (json_loads (e_parameters a)) as [cfg|]; [simpl|done].
  destruct (getitem cfg "metricSpec") as [spec|]; [simpl|done].
  destruct (getitem spec "userInfo") as [ui|]; [simpl|done].
  destruct (getitem ui "metricType") as [mt'|]; [simpl|done].
  destruct (getitem ui "metricTypeName") as [mtn'|]; [simpl|done].
  destruct (getitem ui "symbol") as [sym'|]; [simpl|done].
  intros [= -> -> ->]. f_equal.
  rewrite !filter_cons, filter_nil. cbn [fst snd ne_str].
  destruct (negb (e_name a =? d_name m)%string),
    (negb (e_server a =? d_display_name m)%string),
    (ne_str mt (d_metricType m)), (ne_str mtn (d_metricTypeName m)),
    (ne_str sym (d_symbol m)); reflexivity.
Qed.

Lemma modelDiffs_raise json_loads (a : EngineRow) (m : DynamoRow) exc :
  userInfoFields json_loads (e_parameters a) = Raise exc →
  modelDiffs json_loads a m = Raise exc.
Proof.
  unfold userInfoFields, modelDiffs.
  destruct (json_loads (e_parameters a)) as [cfg|]; simpl; [|by intros [= ->]].
  destruct (getitem cfg "metricSpec") as [spec|]; simpl; [|by intros [= ->]].
  destruct (getitem spec "userInfo") as [ui|]; simpl; [|by intros [= ->]].
  destruct (getitem ui "metricType") as [mt'|]; simpl; [|by intros [= ->]].
  destruct (getitem ui "metricTypeName") as [mtn'|]; simpl; [|by intros [= ->]].
  destruct (getitem ui "symbol") as [sym'|]; simpl; [|by intros [= ->]].
  discriminate.
Qed.

(** X3: for a record whose payload holds the three fields, the
    differences found are the compared pairs whose two sides differ, in
    the order name, display_name, metricType, metricTypeName, symbol:
    each differing pair is listed once with both values, and no equal
    pair is listed. *)
Theorem modelDiffs_exact :
  ∀ (json_loads : string -> result pyval) (activeModel : EngineRow)
    (dynamodbModel : DynamoRow) (fields : pyval * pyval * pyval),
    userInfoFields json_loads (e_parameters activeModel) = Ok fields →
    ∃ diffs,
      modelDiffs json_loads activeModel dynamodbModel = Ok diffs ∧
      diffs `sublist_of` comparedFields activeModel fields dynamodbModel ∧
      ∀ field engineValue dynamodbValue,
        (field, engineValue, dynamodbValue) ∈ diffs ↔
        (field, engineValue, dynamodbValue)
          ∈ comparedFields activeModel fields dynamodbModel ∧
        engineValue ≠ PStr dynamodbValue.
Proof.
  intros json_loads a m fields Hf. eexists.
  split; [by apply modelDiffs_filter|]. split; [apply sublist_filter|].
  intros field ev dv. rewrite list_elem_of_filter. simpl.
  rewrite ne_str_true. tauto.
Qed.


Lemma for_in_collect_complete {A B} (step : A -> result B)
  (keep : B -> bool) (body : list (A * B) -> A -> result (list (A * B)))
  (l : list A) (acc res : list (A * B)) :
  (∀ acc x, body acc x
            = y ← step x; if keep y then Ok (acc ++ [(x, y)]) else Ok acc) →
  for_in l acc body = Ok res →
  (∀ p, p ∈ acc → p ∈ res) ∧
  (∀ x y, x ∈ l → step x = Ok y → keep y = true → (x, y) ∈ res).
Proof.
  intros Hbody. revert acc.
  induction l as [|x l IH]; intros acc Hres; simpl in Hres.
  - injection Hres as <-. split; [done|].
    intros x y Hin. by apply elem_of_nil in Hin.
  - rewrite Hbody in Hres. destruct (step x) as [y|e] eqn:Hx; [|done].
    simpl in Hres. destruct (keep y) eqn:Hk; simpl in Hres;
      destruct (IH _ Hres) as [Hacc Hl]; split.
    + intros p Hp. apply Hacc, elem_of_app. by left.
    + intros x' y' [->|Hin]%elem_of_cons Hx' Hk'.
      * assert (y' = y) as -> by congruence.
        apply Hacc, elem_of_app. right. by left.
      * by apply Hl.
    + done.
    + intros x' y' [->|Hin]%elem_of_cons Hx' Hk'.
      * congruence.
      * by apply Hl.
Qed.

Lemma modelDiffs_Ok_fields json_loads (a : EngineRow) (m : DynamoRow) diffs :
  modelDiffs json_loads a m = Ok diffs →
  ∃ fields,
    userInfoFields json_loads (e_parameters a) = Ok fields ∧
    diffs = filter (fun t : diff => ne_str t.1.2 t.2 = true)
              (comparedFields a fields m).
Proof.
  intros Hd.
  destruct (userInfoFields json_loads (e_parameters a)) as [fields|exc]
    eqn:Hf.
  - exists fields. split; [done|].
    rewrite (modelDiffs_filter _ _ m _ Hf) in Hd. by injection Hd.
  - by rewrite (modelDiffs_raise _ _ m _ Hf) in Hd.
Qed.



Lemma for_in_collect_steps {A B} (step : A -> result B)
  (keep : B -> bool) (body : list (A * B) -> A -> result (list (A * B)))
  (l : list A) (acc res : list (A * B)) :
  (∀ acc x, body acc x
            = y ← step x; if keep y then Ok (acc ++ [(x, y)]) else Ok acc) →
  for_in l acc body = Ok res →
  ∀ x, x ∈ l → ∃ y, step x = Ok y.
Proof.
  intros Hbody. revert acc.
  induction l as [|x l IH]; intros acc Hres x' Hin; simpl in Hres.
  - by apply elem_of_nil in Hin.
  - rewrite Hbody in Hres. destruct (step x) as [y|e] eqn:Hx; [|done].
    simpl in Hres. apply elem_of_cons in Hin as [->|Hin]; [by exists y|].
    destruct (keep y); simpl in Hres; by eapply IH.
Qed.

Lemma mismatches_NoDup json_loads e d ms :
  mismatches json_loads e d = Ok ms → NoDup ms.*1.
Proof.
  intros Hms.
  set (step := stepDiffs json_loads e d).
  set (g := fun uid => match step uid with Ok ds => ds | Raise _ => [] end).
  assert (Hclosed : mismatches json_loads e d
                    = Ok ([] ++ filter (fun p => truthy p.2 = true)
                             (map (fun uid => (uid, g uid))
                                (elements (commonMetricIds e d))))).
  { unfold mismatches. apply (for_in_collect_ok step g truthy).
    - intros acc uid. apply mismatches_body.
    - intros uid Hin. unfold mismatches in Hms.
      destruct (for_in_collect_steps step truthy _ _ _ _
                  (fun acc x => mismatches_body json_loads e d acc x)
                  Hms uid Hin) as [y Hy].
      unfold g. by rewrite Hy. }
  rewrite Hms in Hclosed. injection Hclosed as ->. simpl.
  apply NoDup_fmap_fst.
  - intros uid y1 y2 [_ H1]%list_elem_of_filter [_ H2]%list_elem_of_filter.
    apply list_elem_of_fmap in H1 as (u1 & [= -> ->] & _).
    apply list_elem_of_fmap in H2 as (u2 & [= -> ->] & _). done.
  - apply NoDup_filter, NoDup_fmap_2; [|apply NoDup_elements].
    intros u1 u2 [= ->]. done.
Qed.

Lemma mismatches_elem_iff json_loads e d ms uid diffs :
  mismatches json_loads e d = Ok ms →
  (uid, diffs) ∈ ms ↔
  ∃ a m,
    activeModelsMap e !! uid = Some a ∧
    dynamodbModelsMap d !! uid = Some m ∧
    modelDiffs json_loads a m = Ok diffs ∧ diffs ≠ [].
Proof.
  intros Hms. split.
  - intros Hp.
    destruct (mismatches_diffs _ _ _ _ _ _ Hms Hp) as (Hc & Hstep & Hk).
    apply elem_of_commonMetricIds in Hc as (a & m & Ha & Hm).
    rewrite (stepDiffs_lookup _ _ _ _ _ _ Ha Hm) in Hstep.
    exists a, m. split_and!; try done. by apply truthy_true.
  - intros (a & m & Ha & Hm & Hd & Hne).
    unfold mismatches in Hms.
    destruct (for_in_collect_complete (stepDiffs json_loads e d) truthy
                _ _ _ _
                (fun acc x => mismatches_body json_loads e d acc x) Hms)
      as [_ Hall].
    apply Hall.
    + apply elem_of_elements.
      fold (commonMetricIds e d). apply elem_of_commonMetricIds. eauto.
    + by rewrite (stepDiffs_lookup _ _ _ _ _ _ Ha Hm).
    + by apply truthy_true.
Qed.

(** X14: whenever the attribute-parity check returns, it returns no
    warning and at most one error finding, written out below. A uid is
    reported exactly when both stores have it, with an ACTIVE engine
    record, and one of the five compared fields differs between the two
    records; no uid is reported twice; the tuples written for a uid are
    those of the differences found for its two records, each with the
    field name and the two values as [str] gives them; and the finding
    is returned only when some uid is reported. *)
Theorem mismatches_reported_when_returned :
  ∀ (json_loads : string -> result pyval)
    (engineMetrics : list EngineRow) (dynamodbMetrics : list DynamoRow)
    (verbose : bool) (ws es : list finding),
    _checkModelAttributeParity json_loads engineMetrics dynamodbMetrics
      verbose = Ok (ws, es) →
    ws = [] ∧
    ∃ reported : list (string * list (list string)),
      NoDup reported.*1 ∧
      (∀ uid, uid ∈ reported.*1 ↔
         ∃ a m fields,
           activeModelsMap engineMetrics !! uid = Some a ∧
           dynamodbModelsMap dynamodbMetrics !! uid = Some m ∧
           userInfoFields json_loads (e_parameters a) = Ok fields ∧
           fieldsDiffer a fields m) ∧
      (∀ uid tuples,
          (uid, tuples) ∈ reported →
          ∃ a m diffs,
            activeModelsMap engineMetrics !! uid = Some a ∧
            dynamodbModelsMap dynamodbMetrics !! uid = Some m ∧
            modelDiffs json_loads a m = Ok diffs ∧
            tuples = map (fun '(field, engineValue, dynamodbValue) =>
                            [field; str_text engineValue; dynamodbValue])
                       diffs) ∧
      ((reported = [] ∧ es = []) ∨
       (reported ≠ [] ∧
        es = [(str_nat (length reported) +:+
               " models have attribute mismatch between Taurus Engine " +:+
               "repository and DynamoDB",
               join nl
                 (map (fun '(uid, tuples) =>
                         "ERROR - model " +:+ uid +:+
                         " has attribute mismatch in Engine vs " +:+
                         "DynamoDB: [" +:+
                         join ", " (map repr_str_tuple tuples) +:+ "]")
                    reported))])).
Proof.
  intros json_loads e d verbose ws es Hret.
  rewrite attribute_check_result in Hret.
  destruct (mismatches json_loads e d) as [ms|exc] eqn:Hms; [|done].
  destruct (unprintableMismatch ms); [done|].
  injection Hret as <- <-. split; [done|].
  set (conv := fun p : string * list diff => (p.1, map diffStrings p.2)).
  exists (map conv ms).
  assert (Hfst : (map conv ms).*1 = ms.*1).
  { clear. induction ms as [|[uid diffs] ms IH]; [done|].
    change (map conv ((uid, diffs) :: ms))
      with (conv (uid, diffs) :: map conv ms).
    by rewrite !fmap_cons, IH. }
  split_and!.
  - rewrite Hfst. by eapply mismatches_NoDup.
  - intros uid. rewrite Hfst, list_elem_of_fmap. split.
    + intros ([uid' diffs] & -> & Hp). simpl.
      apply (mismatches_elem_iff _ _ _ _ _ _ Hms) in Hp
        as (a & m & Ha & Hm & Hd & Hne).
      destruct (modelDiffs_Ok_fields _ _ _ _ Hd) as (fields & Hf & _).
      exists a, m, fields. split_and!; try done.
      destruct fields as [[mt mtn] sym].
      destruct (modelDiffs_fields json_loads a m mt mtn sym Hf)
        as (ds & Hds & Hiff).
      apply Hiff, truthy_true. congruence.
    + intros (a & m & [[mt mtn] sym] & Ha & Hm & Hf & Hdiff).
      destruct (modelDiffs_fields json_loads a m mt mtn sym Hf)
        as (ds & Hds & Hiff).
      exists (uid, ds). split; [done|].
      apply (mismatches_elem_iff _ _ _ _ _ _ Hms).
      exists a, m. split_and!; try done.
      by apply truthy_true, Hiff.
  - intros uid tuples ([uid' diffs] & [= -> ->] & Hp)%list_elem_of_fmap.
    simpl.
    apply (mismatches_elem_iff _ _ _ _ _ _ Hms) in Hp
      as (a & m & Ha & Hm & Hd & _).
    exists a, m, diffs. split_and!; try done.
  - destruct ms as [|p ms']; [by left|]. right. split; [done|].
    simpl truthy. cbv iota. f_equal. apply mismatchFinding_text.
Qed.

(** ** Further properties of the run and of the report *)

Lemma runAllChecks_result json_loads e d verbose :
  (_runAllChecks json_loads e d verbose).2
  = match mismatches json_loads e d with
    | Ok ms =>
        if unprintableMismatch ms then Raise UnicodeEncodeError
        else Ok ((_checkFailedModels e verbose).1,
                 parityErrors e d
                 ++ (if truthy ms then [mismatchFinding ms] else []))
    | Raise exc => Raise exc
    end.
Proof.
  unfold _runAllChecks. simpl.
  rewrite checkModelParity_returns, attribute_check_result. simpl.
  destruct (mismatches json_loads e d) as [ms|]; simpl; [|done].
  destruct (unprintableMismatch ms); simpl; [done|].
  by rewrite !app_nil_r.
Qed.

Lemma parityErrors_length e d : (length (parityErrors e d) <= 2)%nat.
Proof.
  unfold parityErrors. rewrite length_app.
  destruct (truthy _), (truthy _); simpl; lia.
Qed.

(** X5: [_runAllChecks] raises exactly when the attribute-parity check
    raises, with the same exception; otherwise its warnings are those of
    the failed-state check, at most one, and its errors are those of the
    set-parity check, at most two, followed by those of the
    attribute-parity check, at most one. *)
Theorem runAllChecks_composition :
  ∀ (json_loads : string -> result pyval)
    (engineMetrics : list EngineRow) (dynamodbMetrics : list DynamoRow)
    (verbose : bool),
    (∀ exc,
        (_runAllChecks json_loads engineMetrics dynamodbMetrics verbose).2
        = Raise exc ↔
        _checkModelAttributeParity json_loads engineMetrics dynamodbMetrics
          verbose = Raise exc) ∧
    (∀ ws es,
        (_runAllChecks json_loads engineMetrics dynamodbMetrics verbose).2
        = Ok (ws, es) →
        ws = (_checkFailedModels engineMetrics verbose).1 ∧
        (length ws <= 1)%nat ∧
        ∃ es2 es3,
          _checkModelParity engineMetrics dynamodbMetrics verbose
          = Ok ([], es2) ∧
          _checkModelAttributeParity json_loads engineMetrics dynamodbMetrics
            verbose = Ok ([], es3) ∧
          es = es2 ++ es3 ∧
          (length es2 <= 2)%nat ∧ (length es3 <= 1)%nat).
Proof.
  intros json_loads e d verbose.
  rewrite runAllChecks_result, attribute_check_result. split.
  - intros exc. destruct (mismatches json_loads e d) as [ms|];
      [|split; congruence].
    destruct (unprintableMismatch ms); split; congruence.
  - intros ws es Hrun.
    destruct (mismatches json_loads e d) as [ms|]; [|done].
    destruct (unprintableMismatch ms); [done|].
    injection Hrun as <- <-. split; [done|]. split.
    + unfold _checkFailedModels. simpl.
      destruct (truthy (errorModels e)); simpl; lia.
    + exists (parityErrors e d),
        (if truthy ms then [mismatchFinding ms] else []).
      split_and!; try done.
      * apply checkModelParity_returns.
      * apply parityErrors_length.
      * destruct (truthy ms); simpl; lia.
Qed.

Lemma parityErrors_nil_iff e d :
  parityErrors e d = [] ↔ ∀ uid, isActiveUid e uid ↔ isMirrorUid d uid.
Proof.
  assert (Hsame : (∀ uid, isActiveUid e uid ↔ isMirrorUid d uid) ↔
                  truthy (elements (inRepositoryButNotInDynamodb e d)) = false ∧
                  truthy (elements (inDynamodbButNotInRepository e d)) = false).
  { rewrite !truthy_elements_false.
    unfold inRepositoryButNotInDynamodb, inDynamodbButNotInRepository.
    rewrite same_keys_iff. split.
    - intros H. apply set_eq. intros uid.
      by rewrite elem_of_dom_activeModelsMap, elem_of_dom_dynamodbModelsMap.
    - intros H uid.
      by rewrite <- elem_of_dom_activeModelsMap,
        <- elem_of_dom_dynamodbModelsMap, H. }
  rewrite Hsame. unfold parityErrors.
  destruct (truthy (elements (inRepositoryButNotInDynamodb e d)));
    destruct (truthy (elements (inDynamodbButNotInRepository e d)));
    simpl; naive_solver.
Qed.


Lemma checkAndReport_result json_loads st verbose warningsAsErrors :
  (checkAndReport json_loads st verbose warningsAsErrors).2
  = match (_runAllChecks json_loads (engineRows st) (scanRows st)
             verbose).2 with
    | Ok (ws, es) => Ok (verdict ws es warningsAsErrors)
    | Raise e => Raise e
    end.
Proof.
  unfold checkAndReport, _getMetricsFromDynamodb.
  destruct (_runAllChecks json_loads (engineRows st) (scanRows st) verbose)
    as [log2 [[ws es]|e]]; reflexivity.
Qed.


Lemma verdict_range (ws es : list finding) (strict : bool) :
  verdict ws es strict = 0%Z ∨ verdict ws es strict = 1%Z.
Proof. unfold verdict. destruct (_ || _); auto. Qed.




(** X7: when the ACTIVE uids and the DynamoDB uids differ in some uid,
    [checkAndReport] never returns 0: it returns 1, whatever the flags,
    unless the attribute-parity check raises. *)
Theorem key_mismatch_fails :
  ∀ (json_loads : string -> result pyval) (st : Stores)
    (verbose warningsAsErrors : bool) (uid : string),
    (isActiveUid (engineRows st) uid ∧ ¬ isMirrorUid (scanRows st) uid) ∨
    (isMirrorUid (scanRows st) uid ∧ ¬ isActiveUid (engineRows st) uid) →
    (checkAndReport json_loads st verbose warningsAsErrors).2 = Ok 1%Z ∨
    ∃ exc,
      (checkAndReport json_loads st verbose warningsAsErrors).2 = Raise exc.
Proof.
  intros json_loads st verbose strict uid Hdiff.
  assert (Hne : parityErrors (engineRows st) (scanRows st) ≠ []).
  { rewrite parityErrors_nil_iff. intros Hsame.
    specialize (Hsame uid). tauto. }
  rewrite checkAndReport_result, runAllChecks_result.
  destruct (mismatches json_loads (engineRows st) (scanRows st)) as [ms|exc].
  - destruct (unprintableMismatch ms).
    + right. by exists UnicodeEncodeError.
    + left. f_equal. unfold verdict.
      destruct (parityErrors (engineRows st) (scanRows st)); [done|].
      reflexivity.
  - right. by exists exc.
Qed.

Lemma aboveInfo_app (l1 l2 : list logrec) :
  aboveInfo (l1 ++ l2) = aboveInfo l1 ++ aboveInfo l2.
Proof. apply filter_app. Qed.

Lemma aboveInfo_verboseCounts e d : aboveInfo (verboseCounts e d) = [].
Proof.
  unfold verboseCounts. rewrite !aboveInfo_app. unfold infoIfAny.
  destruct (countStatus UNMONITORED e), (countStatus CREATE_PENDING e),
    (countStatus PENDING_DATA e); reflexivity.
Qed.

Lemma aboveInfo_reportFindings ws es verbose1 verbose2 :
  aboveInfo (reportFindings ws es verbose1)
  = aboveInfo (reportFindings ws es verbose2).
Proof.
  unfold reportFindings.
  destruct ws as [|w ws], es as [|e es], verbose1, verbose2; simpl truthy;
    cbv beta iota; simpl orb; cbv iota;
    rewrite ?aboveInfo_app; try reflexivity.
Qed.

Lemma checkAndReport_log json_loads st verbose warningsAsErrors :
  (checkAndReport json_loads st verbose warningsAsErrors).1
  = (if verbose
     then [(LogInfo, "Accessing Taurus Engine repository via " +:+
                     sqlEngine st)]
     else [])
    ++ (_getMetricsFromDynamodb st verbose).1
    ++ (if verbose then verboseCounts (engineRows st) (scanRows st) else [])
    ++ match (_runAllChecks json_loads (engineRows st) (scanRows st)
                verbose).2 with
       | Ok (ws, es) => reportFindings ws es verbose
       | Raise _ => []
       end.
Proof.
  unfold checkAndReport, _getMetricsFromDynamodb, _runAllChecks. simpl.
  destruct (_ ≫= _) as [[ws es]|exc]; simpl; [done|].
  by rewrite app_nil_r.
Qed.

(** X8: the verbose flag changes INFO records only: the records that
    [checkAndReport] logs at the warning and error levels are the same,
    in the same order, for both values of the flag. *)
Theorem verbose_adds_info_only :
  ∀ (json_loads : string -> result pyval) (st : Stores)
    (warningsAsErrors verbose1 verbose2 : bool),
    aboveInfo (checkAndReport json_loads st verbose1 warningsAsErrors).1
    = aboveInfo (checkAndReport json_loads st verbose2 warningsAsErrors).1.
Proof.
  intros json_loads st strict v1 v2.
  rewrite !checkAndReport_log, !aboveInfo_app.
  assert (Hrun : (_runAllChecks json_loads (engineRows st) (scanRows st) v1).2
                 = (_runAllChecks json_loads (engineRows st) (scanRows st)
                      v2).2) by reflexivity.
  rewrite Hrun.
  generalize (_runAllChecks json_loads (engineRows st) (scanRows st) v2).2.
  intros r.
  assert (H0 : ∀ (v : bool) (l : list logrec),
             aboveInfo l = [] → aboveInfo (if v then l else []) = []).
  { intros [] l Hl; [done|reflexivity]. }
  rewrite !H0 by (reflexivity || apply aboveInfo_verboseCounts).
  assert (H1 : ∀ v, aboveInfo (_getMetricsFromDynamodb st v).1 = []).
  { intros []; reflexivity. }
  rewrite !H1. cbn [app].
  destruct r as [[ws es]|exc]; [|reflexivity].
  apply aboveInfo_reportFindings.
Qed.

Lemma reportFindings_quiet_nil ws es :
  reportFindings ws es false = [] ↔ ws = [] ∧ es = [].
Proof.
  unfold reportFindings. destruct ws as [|w ws], es as [|e es]; simpl.
  - done.
  - split; [discriminate|]. by intros [_ ?].
  - split; [discriminate|]. by intros [? _].
  - split; [discriminate|]. by intros [? _].
Qed.

(** X9: without the verbose flag [checkAndReport] logs nothing exactly
    when the checks raise or return no finding; with the flag it always
    logs something. *)
Theorem quiet_log_empty_iff :
  ∀ (json_loads : string -> result pyval) (st : Stores)
    (warningsAsErrors : bool),
    ((checkAndReport json_loads st false warningsAsErrors).1 = [] ↔
     ∀ ws es,
       (_runAllChecks json_loads (engineRows st) (scanRows st) false).2
       = Ok (ws, es) → ws = [] ∧ es = []) ∧
    (checkAndReport json_loads st true warningsAsErrors).1 ≠ [].
Proof.
  intros json_loads st strict. split.
  - rewrite checkAndReport_log. unfold _getMetricsFromDynamodb.
    cbn [fst app].
    destruct (_runAllChecks json_loads (engineRows st) (scanRows st) false).2
      as [[ws es]|exc].
    + rewrite reportFindings_quiet_nil. split.
      * intros H ws' es' [= <- <-]. done.
      * intros H. by apply H.
    + split; [|done]. intros _ ws es. discriminate.
  - rewrite checkAndReport_log. discriminate.
Qed.

(** ** Further properties of the detail lines *)

(** X10: every detail line of a set-parity finding is written for one
    input row, with the uid and the name of that same row. The detail of
    a finding is one line per row of a non-empty list, either of ACTIVE
    engine records whose uid no DynamoDB item has, or of DynamoDB items
    whose uid no ACTIVE engine record has. *)
Theorem parity_lines_from_rows :
  ∀ (engineMetrics : list EngineRow) (dynamodbMetrics : list DynamoRow)
    (verbose : bool),
  ∃ es,
    _checkModelParity engineMetrics dynamodbMetrics verbose = Ok ([], es) ∧
    ∀ f, f ∈ es →
      (∃ objs,
          objs ≠ [] ∧
          (∀ obj, obj ∈ objs →
                  obj ∈ engineMetrics ∧ e_status obj = ACTIVE ∧
                  ¬ isMirrorUid dynamodbMetrics (e_uid obj)) ∧
          f.2 = join nl
                  (map (fun obj =>
                          "ERROR - model not in DynamoDB: " +:+
                          repr_str_list [e_uid obj; e_name obj]) objs)) ∨
      (∃ rows,
          rows ≠ [] ∧
          (∀ row, row ∈ rows →
                  row ∈ dynamodbMetrics ∧
                  ¬ isActiveUid engineMetrics (d_uid row)) ∧
          f.2 = join nl
                  (map (fun row =>
                          "ERROR - model UID not in Taurus Engine " +:+
                          "repository: " +:+
                          repr_str_list [d_uid row; d_name row]) rows)).
Proof.
  intros e d verbose. exists (parityErrors e d).
  split; [apply checkModelParity_returns|].
  intros f Hf. unfold parityErrors in Hf.
  apply elem_of_app in Hf as [Hf|Hf].
  - destruct (truthy _) eqn:Ht; [|by apply elem_of_nil in Hf].
    apply list_elem_of_singleton in Hf as ->. left.
    destruct (notInDynamodbFinding_text e d) as (objs & Hobjs & ->).
    exists objs. split_and!; [| |reflexivity].
    + apply truthy_true in Ht. intros ->.
      apply Forall2_nil_inv_r in Hobjs. done.
    + intros obj Hin.
      destruct (Forall2_elem_of_r _ _ _ _ Hobjs Hin) as (uid & Huid & Hobj).
      destruct (activeModelsMap_lookup _ _ _ Hobj) as (? & <- & ?).
      apply elem_of_elements, elem_of_inRepositoryButNotInDynamodb in Huid
        as [_ ?]. done.
  - destruct (truthy _) eqn:Ht; [|by apply elem_of_nil in Hf].
    apply list_elem_of_singleton in Hf as ->. right.
    destruct (notInRepositoryFinding_text e d) as (rows & Hrows & ->).
    exists rows. split_and!; [| |reflexivity].
    + apply truthy_true in Ht. intros ->.
      apply Forall2_nil_inv_r in Hrows. done.
    + intros row Hin.
      destruct (Forall2_elem_of_r _ _ _ _ Hrows Hin) as (uid & Huid & Hrow).
      destruct (dynamodbModelsMap_lookup _ _ _ Hrow) as (? & <-).
      apply elem_of_elements, elem_of_inDynamodbButNotInRepository in Huid
        as [_ ?]. done.
Qed.

Lemma append_cons (c : ascii) (s1 s2 : string) :
  String c s1 +:+ s2 = String c (s1 +:+ s2).
Proof. reflexivity. Qed.

Lemma count_char_app (c : ascii) (s1 s2 : string) :
  count_char c (s1 +:+ s2) = count_char c s1 + count_char c s2.
Proof.
  induction s1 as [|d s1 IH]; [reflexivity|].
  rewrite append_cons. simpl. rewrite IH. lia.
Qed.

Lemma count_nl_app (s1 s2 : string) :
  count_nl (s1 +:+ s2) = count_nl s1 + count_nl s2.
Proof. apply count_char_app. Qed.

Lemma count_nl_escape (c : ascii) :
  count_nl (escape "'"%char c) = 0 ∧ count_nl (escape "034"%char c) = 0.
Proof.
  destruct c as [[] [] [] [] [] [] [] []]; split; vm_compute; reflexivity.
Qed.

Lemma count_nl_escape_all (quote : ascii) (s : string) :
  quote = "'"%char ∨ quote = "034"%char →
  count_nl (escape_all quote s) = 0.
Proof.
  intros Hq. induction s as [|c s IH]; [reflexivity|].
  simpl. rewrite count_nl_app, IH.
  destruct (count_nl_escape c) as [H1 H2].
  destruct Hq as [-> | ->]; lia.
Qed.

Lemma count_nl_repr_str (s : string) : count_nl (repr_str s) = 0.
Proof.
  unfold repr_str.
  destruct (contains "'"%char s && negb (contains "034"%char s)).
  - change (String ?q ?r) with (String q "" +:+ r) at 1.
    rewrite !count_nl_app, count_nl_escape_all by auto. reflexivity.
  - change (String ?q ?r) with (String q "" +:+ r) at 1.
    rewrite !count_nl_app, count_nl_escape_all by auto. reflexivity.
Qed.

Lemma count_nl_join (sep : string) (l : list string) :
  count_nl (join sep l)
  = sum_list (map count_nl l) + (length l - 1) * count_nl sep.
Proof.
  induction l as [|x [|y r] IH]; [reflexivity|simpl; lia|].
  change (join sep (x :: y :: r)) with (x +:+ sep +:+ join sep (y :: r)).
  rewrite !count_nl_app, IH. simpl. lia.
Qed.

Lemma sum_list_zero {A} (f : A -> nat) (l : list A) :
  (∀ x, f x = 0) → sum_list (map f l) = 0.
Proof. intros H. induction l; simpl; [done|]. rewrite H, IHl. done. Qed.

Lemma count_nl_repr_str_list (l : list string) :
  count_nl (repr_str_list l) = 0.
Proof.
  unfold repr_str_list.
  rewrite !count_nl_app, count_nl_join, map_map.
  rewrite (sum_list_zero _ _ count_nl_repr_str).
  change (count_nl ", ") with 0. change (count_nl "[") with 0.
  change (count_nl "]") with 0. lia.
Qed.

Lemma count_nl_repr_str_tuple (l : list string) :
  count_nl (repr_str_tuple l) = 0.
Proof.
  unfold repr_str_tuple.
  destruct l as [|x [|y r]];
    rewrite !count_nl_app, ?count_nl_join, ?map_map,
      ?(sum_list_zero _ _ count_nl_repr_str), ?count_nl_repr_str;
    change (count_nl ", ") with 0; change (count_nl "(") with 0;
    change (count_nl ")") with 0; change (count_nl ",)") with 0;
    simpl; lia.
Qed.

Lemma count_nl_lines {A} (line : A -> string) (l : list A) :
  (∀ x, count_nl (line x) = 0) →
  count_nl (join nl (map line l)) = length l - 1.
Proof.
  intros H. rewrite count_nl_join, map_map, (sum_list_zero _ _ H).
  rewrite length_map. change (count_nl nl) with 1. lia.
Qed.

Lemma count_nl_failedModelLine obj : count_nl (failedModelLine obj) = 0.
Proof.
  unfold failedModelLine. rewrite count_nl_app, count_nl_repr_str_list.
  reflexivity.
Qed.

Lemma count_nl_notInDynamodbLine uid name :
  count_nl (notInDynamodbLine uid name) = 0.
Proof.
  unfold notInDynamodbLine. rewrite count_nl_app, count_nl_repr_str_list.
  reflexivity.
Qed.

Lemma count_nl_notInRepositoryLine uid name :
  count_nl (notInRepositoryLine uid name) = 0.
Proof.
  unfold notInRepositoryLine. rewrite count_nl_app, count_nl_repr_str_list.
  reflexivity.
Qed.

(** X11: the detail of a finding of the failed-state check or of the
    set-parity check has exactly one line per reported record, whatever
    the uids, names and messages contain: a line feed inside a value is
    written escaped, so the number of line feeds in the detail is the
    number of records less one. *)
Theorem detail_has_one_line_per_record :
  ∀ (engineMetrics : list EngineRow) (dynamodbMetrics : list DynamoRow)
    (verbose : bool),
    (∀ f, f ∈ (_checkFailedModels engineMetrics verbose).1 →
          count_nl f.2 + 1 = length (errorModels engineMetrics)) ∧
    ∃ es,
      _checkModelParity engineMetrics dynamodbMetrics verbose
      = Ok ([], es) ∧
      ∀ f, f ∈ es →
        (f = notInDynamodbFinding engineMetrics dynamodbMetrics ∧
         count_nl f.2 + 1
         = size (inRepositoryButNotInDynamodb engineMetrics
                   dynamodbMetrics)) ∨
        (f = notInRepositoryFinding engineMetrics dynamodbMetrics ∧
         count_nl f.2 + 1
         = size (inDynamodbButNotInRepository engineMetrics
                   dynamodbMetrics)).
Proof.
  intros e d verbose. split.
  - intros f Hf. unfold _checkFailedModels in Hf. simpl in Hf.
    destruct (errorModels e) as [|obj rest] eqn:E; simpl in Hf;
      [by apply elem_of_nil in Hf|].
    apply list_elem_of_singleton in Hf as ->.
    unfold failedModelsFinding. cbn [snd].
    rewrite (count_nl_lines _ _ count_nl_failedModelLine). simpl. lia.
  - exists (parityErrors e d). split; [apply checkModelParity_returns|].
    intros f Hf. unfold parityErrors in Hf.
    apply elem_of_app in Hf as [Hf|Hf].
    + destruct (truthy _) eqn:Ht; [|by apply elem_of_nil in Hf].
      apply list_elem_of_singleton in Hf as ->. left. split; [done|].
      unfold notInDynamodbFinding. cbn [snd].
      rewrite (count_nl_lines
                 (fun uid => notInDynamodbLine uid (activeName e uid)))
        by (intros; apply count_nl_notInDynamodbLine).
      apply truthy_true in Ht. unfold size, set_size. simpl.
      destruct (elements (inRepositoryButNotInDynamodb e d)); [done|].
      simpl. lia.
    + destruct (truthy _) eqn:Ht; [|by apply elem_of_nil in Hf].
      apply list_elem_of_singleton in Hf as ->. right. split; [done|].
      unfold notInRepositoryFinding. cbn [snd].
      rewrite (count_nl_lines
                 (fun uid => notInRepositoryLine uid (dynamodbName d uid)))
        by (intros; apply count_nl_notInRepositoryLine).
      apply truthy_true in Ht. unfold size, set_size. simpl.
      destruct (elements (inDynamodbButNotInRepository e d)); [done|].
      simpl. lia.
Qed.

(** X12: a line of the attribute-mismatch detail holds the uid as it is
    and the differences escaped: it has as many line feeds as the uid
    has, so the detail of the finding has one line per reported uid
    exactly when no reported uid holds a line feed. The line and the
    finding meant are those the check writes, whenever it writes
    them. *)
Theorem mismatch_line_feeds :
  ∀ (ms : list (string * list diff)),
    (∀ uid diffs, count_nl (mismatchLine uid diffs) = count_nl uid) ∧
    count_nl (mismatchFinding ms).2
    = sum_list (map (fun p => count_nl p.1) ms) + (length ms - 1) ∧
    (∀ uid diffs line,
        renderMismatchLine uid diffs = Ok line →
        line = mismatchLine uid diffs) ∧
    (∀ f, renderMismatches ms = Ok f → f = mismatchFinding ms).
Proof.
  assert (Hline : ∀ uid diffs,
             count_nl (mismatchLine uid diffs) = count_nl uid).
  { intros uid diffs. unfold mismatchLine.
    rewrite !count_nl_app, count_nl_join, map_map.
    rewrite (sum_list_zero
               (fun d => count_nl (repr_str_tuple (diffStrings d))))
      by (intros; apply count_nl_repr_str_tuple).
    change (count_nl ", ") with 0.
    change (count_nl "ERROR - model ") with 0.
    change (count_nl " has attribute mismatch in Engine vs ") with 0.
    change (count_nl "DynamoDB: ") with 0.
    change (count_nl "[") with 0. change (count_nl "]") with 0. lia. }
  intros ms. split_and!; [exact Hline| | |].
  - unfold mismatchFinding. cbn [snd].
    rewrite count_nl_join, map_map, length_map.
    change (count_nl nl) with 1. f_equal; [|lia]. f_equal.
    apply map_ext. intros [uid diffs]. apply Hline.
  - intros uid diffs line. rewrite renderMismatchLine_cases.
    destruct (existsb unprintable diffs); [done|]. by intros [= <-].
  - intros f. rewrite renderMismatches_cases.
    destruct (unprintableMismatch ms); [done|]. by intros [= <-].
Qed.

(** ** The console entry point *)

(** X13: [main] returns only 0 or 1; after [--help], when the parser
    exits with code 0, it returns 0 and logs nothing; any other
    [SystemExit] of the parser is passed on with its code, and [main]
    lets no [SystemExit] through otherwise; an exception of the checks
    is passed on as it is. *)
Theorem main_endings :
  ∀ (parse_args : list string -> Parsed)
    (json_loads : string -> result pyval) (st : Stores) (args : list string),
    (∀ code,
        (main parse_args json_loads st args).2 = Returned code →
        code = 0%Z ∨ code = 1%Z) ∧
    (parse_args args = SystemExit 0 →
     main parse_args json_loads st args = ([], Returned 0%Z)) ∧
    (∀ code,
        (main parse_args json_loads st args).2 = Exited code ↔
        parse_args args = SystemExit code ∧ code ≠ 0%Z) ∧
    (∀ exc,
        (main parse_args json_loads st args).2 = Failed exc ↔
        ∃ verbose warningsAsErrors,
          parse_args args = Namespace verbose warningsAsErrors ∧
          (checkAndReport json_loads st verbose warningsAsErrors).2
          = Raise exc).
Proof.
  intros parse_args json_loads st args. unfold main.
  destruct (parse_args args) as [verbose strict|code0].
  - pose proof (checkAndReport_result json_loads st verbose strict) as Hres.
    destruct (checkAndReport json_loads st verbose strict) as [log r]
      eqn:Hcr.
    cbn [snd] in Hres. cbn [snd]. split_and!.
    + intros code Hret. destruct r as [z|exc]; [|done].
      injection Hret as ->.
      destruct (_runAllChecks json_loads (engineRows st) (scanRows st)
                  verbose).2 as [[ws es]|]; [|done].
      injection Hres as ->. apply verdict_range.
    + done.
    + intros code. split; [by destruct r | by intros [? _]].
    + intros exc. split.
      * destruct r as [z|exc']; [done|]. intros [= ->].
        exists verbose, strict. by rewrite Hcr.
      * intros (v & s & [= <- <-] & Hr). rewrite Hcr in Hr.
        cbn [snd] in Hr. by rewrite Hr.
  - destruct (Z.eqb_spec code0 0) as [->|Hne]; simpl; split_and!.
    + intros code [= <-]. by left.
    + done.
    + intros code. split; [done|]. intros [[= <-] Hne]. done.
    + intros exc. split; [done|]. by intros (? & ? & ? & _).
    + done.
    + intros [= ->]. done.
    + intros code. split.
      * intros [= ->]. done.
      * intros [[= ->] _]. done.
    + intros exc. split; [done|]. by intros (? & ? & ? & _).
Qed.

(** ** The further theorems at the sample inputs *)

Lemma modelDiffs_exact_witness :
  userInfoFields Samples.loads (e_parameters Samples.activeRow)
  = Ok (PStr "StockPrice", PStr "Stock Price", PStr "ACME") ∧
  ∃ diffs,
    modelDiffs Samples.loads Samples.activeRow Samples.item1 = Ok diffs ∧
    ("display_name", PStr "Acme Corp.", "Acme Corporation") ∈ diffs.
Proof.
  assert (Hf : userInfoFields Samples.loads (e_parameters Samples.activeRow)
               = Ok (PStr "StockPrice", PStr "Stock Price", PStr "ACME"))
    by (vm_compute; reflexivity).
  split; [exact Hf|].
  destruct (modelDiffs_exact Samples.loads Samples.activeRow Samples.item1
              _ Hf) as (diffs & Hd & _ & Hiff).
  exists diffs. split; [exact Hd|]. apply Hiff. split.
  - right. left.
  - discriminate.
Defined.


Lemma key_mismatch_fails_witness :
  (isMirrorUid (scanRows SampleStores.stores) "2" ∧
   ¬ isActiveUid (engineRows SampleStores.stores) "2") ∧
  (checkAndReport Samples.loads SampleStores.stores true true).2 = Ok 1%Z.
Proof.
  assert (H : isMirrorUid (scanRows SampleStores.stores) "2" ∧
              ¬ isActiveUid (engineRows SampleStores.stores) "2").
  { split.
    - exists Samples.item2. split; [right; left|reflexivity].
    - intros (obj & Hin & Huid & Hst). simpl in Hin.
      apply elem_of_cons in Hin as [->|Hin];
        [|apply list_elem_of_singleton in Hin as ->]; discriminate. }
  split; [exact H|].
  destruct (key_mismatch_fails Samples.loads SampleStores.stores true true
              "2" (or_intror H)) as [H1|[exc Hexc]]; [exact H1|].
  vm_compute in Hexc. discriminate Hexc.
Defined.

Lemma mismatches_reported_when_returned_witness :
  ∃ es,
    _checkModelAttributeParity Samples.loads
      [Samples.activeRow; Samples.failedRow]
      [Samples.item1; Samples.item2] false = Ok ([], es) ∧
    length es = 1.
Proof.
  destruct (_checkModelAttributeParity Samples.loads
              [Samples.activeRow; Samples.failedRow]
              [Samples.item1; Samples.item2] false) as [[ws es]|exc] eqn:Hret;
    [|vm_compute in Hret; discriminate Hret].
  destruct (mismatches_reported_when_returned _ _ _ _ _ _ Hret)
    as (-> & reported & _ & Hiff & _ & Hemit).
  exists es. split; [reflexivity|].
  destruct Hemit as [[-> _]|[_ ->]]; [|reflexivity].
  assert (Hin : "1" ∈ ([] : list (string * list (list string))).*1).
  { apply Hiff.
    exists Samples.activeRow, Samples.item1,
      (PStr "StockPrice", PStr "Stock Price", PStr "ACME").
    split_and!; [vm_compute; reflexivity ..|].
    right. left. vm_compute. discriminate. }
  by apply elem_of_nil in Hin.
Defined.
